(** * Amplify function handlers: hello-world and todo-processor

    A shallow embedding of the two Lambda handlers

      - [amplify/functions/hello-world/handler.ts]
      - the todo-processor handler (second half of
        [amplify/functions/todo-processor/resource.ts])

    together with the part of the JavaScript platform they rely on
    (JSON values, [JSON.stringify], property access, truthiness, string
    conversion, the clock, [Math.random] and [process.env]).

    Strings are modelled as byte strings holding the UTF-8 encoding of the
    JavaScript string.  Every string operation used by the handlers
    (concatenation, emptiness test, comparison with an ASCII literal, JSON
    quoting) commutes with that encoding for well-formed text.  The strings
    of an event (method, parameters, body text) are decoded text and hence
    well formed; an ill-formed string, one with a lone surrogate, can only
    come out of [JSON.parse] (from a [\u] escape) and is set apart by
    [well_formed] below. *)

From Stdlib Require Import ZArith NArith Ascii String List Lia.
From Stdlib Require Import DecimalString DecimalZ.
From stdpp Require Import gmap strings list.

Set Warnings "-register-all".
Open Scope string_scope.
Open Scope Z_scope.

(** ** Characters and strings *)

Definition DQUOTE : ascii := "034"%char.
Definition BACKSLASH : ascii := "092"%char.
Definition APOSTROPHE : ascii := "039"%char.

(** [dq s] is [s] with every apostrophe turned into a double quote; it is
    only a way of writing JSON texts legibly. *)
Fixpoint dq (s : string) : string :=
  match s with
  | EmptyString => EmptyString
  | String c r => String (if Ascii.eqb c APOSTROPHE then DQUOTE else c) (dq r)
  end.

Definition str1 (c : ascii) : string := String c EmptyString.

(** JavaScript truthiness of a string: non-empty. *)
Definition nonempty (s : string) : bool :=
  match s with EmptyString => false | String _ _ => true end.

Fixpoint is_prefix (p s : string) : bool :=
  match p, s with
  | EmptyString, _ => true
  | String a p', String b s' => Ascii.eqb a b && is_prefix p' s'
  | String _ _, EmptyString => false
  end.

(** [contains s t]: [s] occurs in [t] as a contiguous run of characters. *)
Fixpoint contains (s t : string) : bool :=
  is_prefix s t ||
  match t with
  | EmptyString => false
  | String _ t' => contains s t'
  end.

(** The propositional reading of [contains]. *)
Definition occurs_in (s t : string) : Prop :=
  exists pre post : string, t = pre ++ s ++ post.

(** [String.prototype.substr(start, len)] for non-negative arguments. *)
Fixpoint drop_str (n : nat) (s : string) : string :=
  match n, s with
  | O, _ => s
  | S n', String _ r => drop_str n' r
  | S _, EmptyString => EmptyString
  end.

Fixpoint take_str (n : nat) (s : string) : string :=
  match n, s with
  | S n', String c r => String c (take_str n' r)
  | _, _ => EmptyString
  end.

Definition substr (start len : nat) (s : string) : string :=
  take_str len (drop_str start s).

Fixpoint join (sep : string) (l : list string) : string :=
  match l with
  | [] => EmptyString
  | [x] => x
  | x :: r => x ++ sep ++ join sep r
  end.

(** Decimal rendering of an integer, as [Number::toString] gives it for an
    integral Number below 10^21 in magnitude. *)
Definition dec (z : Z) : string := NilZero.string_of_int (Z.to_int z).

(** ** JSON values *)

(** A Number is represented by a decimal literal that denotes it; what the
    IEEE double behind the literal looks like is left to the [Engine]. *)
Definition number := string.

Inductive json : Type :=
| JNull
| JBool (b : bool)
| JNum (n : number)
| JStr (s : string)
| JArr (items : list json)
| JObj (props : list (string * json)).

(** A JavaScript value read from a property: [None] is [undefined]. *)
Definition jsval := option json.

Fixpoint assoc (k : string) (props : list (string * json)) : jsval :=
  match props with
  | [] => None
  | (k', v) :: r => if String.eqb k k' then Some v else assoc k r
  end.

Definition has_key (k : string) (props : list (string * json)) : bool :=
  match assoc k props with Some _ => true | None => false end.

(** How deeply arrays and objects are nested in a value; a scalar has
    depth 0. *)
Fixpoint depth (v : json) : nat :=
  match v with
  | JArr items => S (fold_right Nat.max O (List.map depth items))
  | JObj props => S (fold_right Nat.max O (List.map (fun p => depth (snd p)) props))
  | _ => O
  end.

(** A lone surrogate has no UTF-8 encoding.  Where one has to be written
    down it takes the three-byte form that the encoding scheme would give
    it: the byte 237 followed by a byte from 160 to 191.  Well-formed text
    has no such pair of bytes. *)
Fixpoint no_surrogate (s : string) : bool :=
  match s with
  | String a ((String b _) as r) =>
      negb ((N_of_ascii a =? 237)%N && (160 <=? N_of_ascii b)%N && (N_of_ascii b <=? 191)%N)
      && no_surrogate r
  | _ => true
  end.

(** Every string of the value, keys included, is well-formed text. *)
Fixpoint well_formed (v : json) : bool :=
  match v with
  | JStr s => no_surrogate s
  | JArr items => forallb well_formed items
  | JObj props => forallb (fun p => no_surrogate (fst p) && well_formed (snd p)) props
  | _ => true
  end.

(** ** Completions *)

(** [RangeError] is what an engine throws when a recursion over a deeply
    nested value exhausts its call stack. *)
Inductive JSError : Type := SyntaxError | TypeError | RangeError.

(** The result of running a piece of code: a value or a thrown error.  For an
    [async] function the same type describes its settled promise (fulfilled or
    rejected). *)
Inductive Completion (A : Type) : Type :=
| Normal (a : A)
| Throw (e : JSError).
Arguments Normal {A} a.
Arguments Throw {A} e.

Definition Promise := Completion.

(** ** The engine: built-ins taken as given

    [JSON_parse] is [JSON.parse] ([None] when it throws a [SyntaxError]);
    an object it returns lists its own properties in enumeration order.  The
    three [Number_] fields give the meaning of a Number: whether it is
    non-zero, its [Number::toString], and whether it is finite.

    [JSON.stringify] and [Array.prototype.join] recurse over the value they
    are given, and the call stack bounds the recursion: [stringify_depth]
    is the deepest nesting that [JSON.stringify] gets through where the
    handlers call it, [join_depth] the deepest nesting of arrays that a
    conversion to string gets through.  Beyond that the engine throws a
    [RangeError].  An engine gets at least through the values that the
    handlers build from their own literals, which nest three deep (an
    envelope holding a list of items). *)
Record Engine : Type := {
  JSON_parse : string -> option json;
  Number_truthy : number -> bool;
  Number_toString : number -> string;
  Number_isFinite : number -> bool;
  stringify_depth : nat;
  join_depth : nat;
  stringify_depth_min : (3 <= stringify_depth)%nat
}.

Section Conversions.
Context (E : Engine).

(** [ToBoolean]. *)
Definition truthy (v : jsval) : bool :=
  match v with
  | None => false
  | Some JNull => false
  | Some (JBool b) => b
  | Some (JNum n) => Number_truthy E n
  | Some (JStr s) => nonempty s
  | Some (JArr _) => true
  | Some (JObj _) => true
  end.

(** [a || b] where [b] is a constant. *)
Definition or_else (v : jsval) (d : json) : json :=
  match v with
  | Some x => if truthy v then x else d
  | None => d
  end.

(** [v.k] for a value produced by [JSON.parse] and a property name [k]
    that no prototype defines and that is neither [length] nor an index
    (the handlers read [name], [message], [content] and [isDone] only):
    reading a property of [null] throws, an object yields its own
    property, every other value yields [undefined]. *)
Definition Get (v : json) (k : string) : Completion jsval :=
  match v with
  | JNull => Throw TypeError
  | JObj props => Normal (assoc k props)
  | _ => Normal None
  end.

(** [ToString], as applied by a template literal, with room for [budget]
    nested arrays on the stack.  A parsed object has no callable own
    property: with an own [toString] neither it nor [valueOf] yields a
    primitive and the conversion throws; otherwise
    [Object.prototype.toString] answers.  An array is joined with commas,
    [null] elements giving the empty string; the elements are converted
    from left to right, one level further down the stack, and the first
    error met on the way is the one thrown. *)
Fixpoint ToString_within (budget : nat) (v : json) {struct v} : Completion string :=
  match v with
  | JNull => Normal "null"
  | JBool true => Normal "true"
  | JBool false => Normal "false"
  | JNum n => Normal (Number_toString E n)
  | JStr s => Normal s
  | JObj props =>
      if has_key "toString" props then Throw TypeError
      else Normal "[object Object]"
  | JArr items =>
      match budget with
      | O => Throw RangeError
      | S below =>
          (fix join_items (l : list json) : Completion string :=
             match l with
             | [] => Normal EmptyString
             | x :: r =>
                 match (match x with
                        | JNull => Normal EmptyString
                        | _ => ToString_within below x
                        end) with
                 | Throw e => Throw e
                 | Normal s =>
                     match r with
                     | [] => Normal s
                     | _ :: _ =>
                         match join_items r with
                         | Throw e => Throw e
                         | Normal t => Normal (s ++ "," ++ t)
                         end
                     end
                 end
             end) items
      end
  end.

Definition ToString (v : json) : Completion string :=
  ToString_within (join_depth E) v.

(** *** [JSON.stringify] *)

Definition hex_digit (n : N) : ascii :=
  match String.get (N.to_nat n) "0123456789abcdef" with
  | Some c => c
  | None => "0"%char
  end.

Definition escape_char (c : ascii) : string :=
  let n := N_of_ascii c in
  if (n =? 34)%N then String BACKSLASH (str1 DQUOTE)
  else if (n =? 92)%N then String BACKSLASH (str1 BACKSLASH)
  else if (n =? 8)%N then String BACKSLASH "b"
  else if (n =? 12)%N then String BACKSLASH "f"
  else if (n =? 10)%N then String BACKSLASH "n"
  else if (n =? 13)%N then String BACKSLASH "r"
  else if (n =? 9)%N then String BACKSLASH "t"
  else if (n <? 32)%N then
    String BACKSLASH ("u00" ++ String (hex_digit (n / 16)) (str1 (hex_digit (n mod 16))))
  else str1 c.

Fixpoint escape (s : string) : string :=
  match s with
  | EmptyString => EmptyString
  | String c r => escape_char c ++ escape r
  end.

Definition QuoteJSONString (s : string) : string :=
  String DQUOTE (escape s ++ str1 DQUOTE).

(** The text that [JSON.stringify] produces for a value whose strings are
    well-formed text, when it gets through the value.  (A lone surrogate
    would be written as a [\u] escape; see [well_formed].) *)
Fixpoint JSON_stringify (v : json) : string :=
  match v with
  | JNull => "null"
  | JBool true => "true"
  | JBool false => "false"
  | JNum n => if Number_isFinite E n then Number_toString E n else "null"
  | JStr s => QuoteJSONString s
  | JArr items => "[" ++ join "," (List.map JSON_stringify items) ++ "]"
  | JObj props =>
      "{" ++ join ","
               (List.map (fun p => QuoteJSONString (fst p) ++ ":" ++ JSON_stringify (snd p))
                         props)
          ++ "}"
  end.

(** The call [JSON.stringify(v)]: the text, or a [RangeError] when [v] is
    nested more deeply than the engine gets through. *)
Definition stringify (v : json) : Completion string :=
  if Nat.leb (depth v) (stringify_depth E) then Normal (JSON_stringify v)
  else Throw RangeError.

End Conversions.

(** ** The world outside the handlers

    The system clock, the random number generator and the process
    environment are oracles; the world counts how often the first two have
    been consulted.  [clock w n] is the n-th reading of the clock in
    milliseconds since the epoch, [random w n] is the n-th value of
    [Math.random().toString(36)]. *)
Record World : Type := {
  FUNCTION_NAME : option string;
  clock : nat -> Z;
  random : nat -> string;
  clock_reads : nat;
  random_draws : nat
}.

Definition M (A : Type) : Type := World -> Completion A * World.

Definition ret {A} (a : A) : M A := fun w => (Normal a, w).

Definition throw {A} (e : JSError) : M A := fun w => (Throw e, w).

Definition bind {A B} (m : M A) (k : A -> M B) : M B :=
  fun w =>
    match m w with
    | (Normal a, w') => k a w'
    | (Throw e, w') => (Throw e, w')
    end.

Notation "'let*' x ':=' m 'in' k" := (bind m (fun x => k))
  (at level 10, x name, m at level 100, k at level 200).

Definition lift {A} (c : Completion A) : M A := fun w => (c, w).

(** [try { m } catch (error) { h }]. *)
Definition try_catch {A} (m : M A) (h : JSError -> M A) : M A :=
  fun w =>
    match m w with
    | (Normal a, w') => (Normal a, w')
    | (Throw e, w') => h e w'
    end.

(** Calling an [async] function never throws: it runs the body (none of the
    functions below suspends) and hands back the settled promise. *)
Definition async {A} (body : M A) : M (Promise A) :=
  fun w => let (c, w') := body w in (Normal c, w').

(** [await p]: the value of a fulfilled promise, or its rejection thrown at
    the point of the [await]. *)
Definition await {A} (p : Promise A) : M A := lift p.

(** What an [async] function body hands to [return]: a plain value, or a
    promise that the function's own promise then follows.  Following happens
    after the body (and every [try] block in it) has been left. *)
Inductive Returned (A : Type) : Type :=
| Value (a : A)
| Thenable (p : Promise A).
Arguments Value {A} a.
Arguments Thenable {A} p.

Definition resolve {A} (r : Returned A) : M A :=
  match r with
  | Value a => ret a
  | Thenable p => lift p
  end.

(** The settled state of the promise that a call [h] made in world [w]
    returns; this is what the Lambda runtime observes. *)
Definition settled {A} (h : M (Promise A)) (w : World) : Completion A :=
  match fst (h w) with
  | Normal p => p
  | Throw e => Throw e
  end.

(** *** Clock, randomness, environment *)

Definition Date_now : M Z :=
  fun w =>
    (Normal (clock w (clock_reads w)),
     {| FUNCTION_NAME := FUNCTION_NAME w; clock := clock w; random := random w;
        clock_reads := S (clock_reads w); random_draws := random_draws w |}).

Definition Math_random_toString36 : M string :=
  fun w =>
    (Normal (random w (random_draws w)),
     {| FUNCTION_NAME := FUNCTION_NAME w; clock := clock w; random := random w;
        clock_reads := clock_reads w; random_draws := S (random_draws w) |}).

Definition process_env_FUNCTION_NAME : M (option string) :=
  fun w => (Normal (FUNCTION_NAME w), w).

(** [a || b] on an optional string. *)
Definition str_or (o : option string) (d : string) : string :=
  match o with
  | Some s => if nonempty s then s else d
  | None => d
  end.

Definition falsy_str (o : option string) : bool :=
  match o with
  | Some s => negb (nonempty s)
  | None => true
  end.

(** Zero-padded decimal of a non-negative number, at least [width] wide. *)
Definition pad (width : nat) (z : Z) : string :=
  let s := dec z in
  String.concat EmptyString (List.repeat "0" (width - String.length s)) ++ s.

(** Civil date of a day number counted from 1970-01-01 (proleptic
    Gregorian calendar). *)
Definition civil_from_days (days : Z) : Z * Z * Z :=
  let z := days + 719468 in
  let era := z / 146097 in
  let doe := z - era * 146097 in
  let yoe := (doe - doe / 1460 + doe / 36524 - doe / 146096) / 365 in
  let doy := doe - (365 * yoe + yoe / 4 - yoe / 100) in
  let mp := (5 * doy + 2) / 153 in
  let d := doy - (153 * mp + 2) / 5 + 1 in
  let m := if mp <? 10 then mp + 3 else mp - 9 in
  let y := yoe + era * 400 + (if m <=? 2 then 1 else 0) in
  (y, m, d).

(** [Date.prototype.toISOString] of a time value. *)
Definition toISOString (t : Z) : string :=
  let '(y, m, d) := civil_from_days (t / 86400000) in
  let ms := t mod 86400000 in
  let year :=
    if (0 <=? y) && (y <=? 9999) then pad 4 y
    else (if y <? 0 then "-" else "+") ++ pad 6 (Z.abs y) in
  year ++ "-" ++ pad 2 m ++ "-" ++ pad 2 d ++ "T"
       ++ pad 2 (ms / 3600000) ++ ":" ++ pad 2 (ms / 60000 mod 60) ++ ":"
       ++ pad 2 (ms / 1000 mod 60) ++ "." ++ pad 3 (ms mod 1000) ++ "Z".

(** [new Date().toISOString()]. *)
Definition new_Date_toISOString : M string :=
  let* t := Date_now in ret (toISOString t).

(** ** API Gateway types (from [aws-lambda]) *)

Record APIGatewayProxyEvent : Type := {
  httpMethod : string;
  path : string;
  queryStringParameters : option (gmap string string);
  pathParameters : option (gmap string string);
  body : option string
}.

Record APIGatewayProxyResult : Type := {
  statusCode : Z;
  headers : list (string * string);
  responseBody : string
}.

(** [o?.k] on an optional string map. *)
Definition opt_get (o : option (gmap string string)) (k : string) : option string :=
  match o with
  | Some m => m !! k
  | None => None
  end.

(** [JSON.parse(s)] as a computation. *)
Definition parse (E : Engine) (s : string) : M json :=
  match JSON_parse E s with
  | Some v => ret v
  | None => throw SyntaxError
  end.

(** ** hello-world/handler.ts *)

Module HelloWorld.
Section Handler.
Context (E : Engine).

Definition responseHeaders : list (string * string) :=
  [ ("Content-Type", "application/json");
    ("Access-Control-Allow-Origin", "*");
    ("Access-Control-Allow-Headers", "Content-Type");
    ("Access-Control-Allow-Methods", "GET, POST, OPTIONS") ].

Definition functionName : M string :=
  let* v := process_env_FUNCTION_NAME in ret (str_or v "hello-world").

(** The object that [createErrorResponse] serialises. *)
Definition errorObject (status : Z) (message timestamp : string) : json :=
  JObj [ ("error", JStr message);
         ("timestamp", JStr timestamp);
         ("statusCode", JNum (dec status)) ].

Definition createErrorResponse (status : Z) (message : string)
  : M APIGatewayProxyResult :=
  let* timestamp := new_Date_toISOString in
  let* text := lift (stringify E (errorObject status message timestamp)) in
  ret {| statusCode := status;
         headers := responseHeaders;
         responseBody := text |}.

(** The object that [handleGetRequest] serialises. *)
Definition getObject (userName timestamp fn : string) : json :=
  JObj [ ("message", JStr ("Hello " ++ userName ++ "!"));
         ("timestamp", JStr timestamp);
         ("method", JStr "GET");
         ("functionName", JStr fn) ].

Definition handleGetRequest (event : APIGatewayProxyEvent)
  : M (Promise APIGatewayProxyResult) :=
  async (
    let queryParams := queryStringParameters event in
    let userName := str_or (opt_get queryParams "name") "World" in
    let* timestamp := new_Date_toISOString in
    let* fn := functionName in
    let* text := lift (stringify E (getObject userName timestamp fn)) in
    ret {| statusCode := 200;
           headers := responseHeaders;
           responseBody := text |}).

(** The object that [handlePostRequest] serialises. *)
Definition postObject (message timestamp : string) (requestBody : json) (fn : string)
  : json :=
  JObj [ ("message", JStr message);
         ("timestamp", JStr timestamp);
         ("method", JStr "POST");
         ("receivedData", requestBody);
         ("functionName", JStr fn) ].

(** The inner [try]/[catch] of [handlePostRequest]: the parsed body, or
    the 400 response returned from the [catch] clause. *)
Definition parseRequestBody (event : APIGatewayProxyEvent)
  : M (APIGatewayProxyResult + json) :=
  try_catch
    (match body event with
     | Some s => if nonempty s then let* v := parse E s in ret (inr v)
                 else ret (inr (JObj []))
     | None => ret (inr (JObj []))
     end)
    (fun _ =>
       let* r := createErrorResponse 400 "リクエストボディが無効なJSON形式です" in
       ret (inl r)).

Definition handlePostRequest (event : APIGatewayProxyEvent)
  : M (Promise APIGatewayProxyResult) :=
  async (
    let* parsed := parseRequestBody event in
    match parsed with
    | inl response => ret response
    | inr requestBody =>
        let* name := lift (Get requestBody "name") in
        let userName := or_else E name (JStr "World") in
        let* message := lift (Get requestBody "message") in
        let customMessage := or_else E message (JStr "Hello") in
        let* s1 := lift (ToString E customMessage) in
        let* s2 := lift (ToString E userName) in
        let* timestamp := new_Date_toISOString in
        let* fn := functionName in
        let* text :=
          lift (stringify E
                  (postObject (s1 ++ " " ++ s2 ++ "!") timestamp requestBody fn)) in
        ret {| statusCode := 200;
               headers := responseHeaders;
               responseBody := text |}
    end).

(** [handler].  The first clock reading belongs to the [console.log] call
    that opens the function (diagnostic output itself is not modelled).
    The [switch] returns the promises of [handleGetRequest] and
    [handlePostRequest] without awaiting them, so the surrounding [try]
    only guards the creation of those promises. *)
Definition handler (event : APIGatewayProxyEvent)
  : M (Promise APIGatewayProxyResult) :=
  async (
    let* _ := new_Date_toISOString in
    let* returned :=
      try_catch
        (if String.eqb (httpMethod event) "GET" then
           let* p := handleGetRequest event in ret (Thenable p)
         else if String.eqb (httpMethod event) "POST" then
           let* p := handlePostRequest event in ret (Thenable p)
         else
           let* r := createErrorResponse 405 "メソッドが許可されていません" in
           ret (Value r))
        (fun _ =>
           let* r := createErrorResponse 500 "サーバー内部エラーが発生しました" in
           ret (Value r)) in
    resolve returned).

End Handler.
End HelloWorld.

(** ** The todo-processor handler *)

Module TodoProcessor.

(** [interface TodoItem].  The declared types of [content] and [isDone]
    are not enforced at run time: [handleUpdateTodo] stores whatever the
    parsed body holds, so both fields carry a JavaScript value. *)
Record TodoItem : Type := {
  id : option string;
  content : jsval;
  isDone : jsval;
  createdAt : option string;
  updatedAt : option string
}.

Inductive TodoData : Type :=
| One (item : TodoItem)
| Many (items : list TodoItem).

(** [interface TodoResponse]. *)
Record TodoResponse : Type := {
  success : bool;
  data : option TodoData;
  message : option string;
  error : option string
}.

Definition failure (msg : string) : TodoResponse :=
  {| success := false; data := None; message := None; error := Some msg |}.

(** Properties whose value is [undefined] are left out by
    [JSON.stringify]. *)
Definition opt_prop (k : string) (o : option json) : list (string * json) :=
  match o with
  | Some v => [(k, v)]
  | None => []
  end.

Definition TodoItem_json (t : TodoItem) : json :=
  JObj (opt_prop "id" (JStr <$> id t)
        ++ opt_prop "content" (content t)
        ++ opt_prop "isDone" (isDone t)
        ++ opt_prop "createdAt" (JStr <$> createdAt t)
        ++ opt_prop "updatedAt" (JStr <$> updatedAt t)).

Definition TodoData_json (d : TodoData) : json :=
  match d with
  | One t => TodoItem_json t
  | Many l => JArr (List.map TodoItem_json l)
  end.

Definition TodoResponse_json (r : TodoResponse) : json :=
  JObj ([("success", JBool (success r))]
        ++ opt_prop "data" (TodoData_json <$> data r)
        ++ opt_prop "message" (JStr <$> message r)
        ++ opt_prop "error" (JStr <$> error r)).

Section Handler.
Context (E : Engine).

Definition corsHeaders : list (string * string) :=
  [ ("Content-Type", "application/json");
    ("Access-Control-Allow-Origin", "*");
    ("Access-Control-Allow-Headers", "Content-Type, Authorization");
    ("Access-Control-Allow-Methods", "GET, POST, PUT, DELETE, OPTIONS") ].

(** The object that [createErrorResponse] serialises. *)
Definition errorObject (status : Z) (msg timestamp : string) : json :=
  JObj [ ("success", JBool false);
         ("error", JStr msg);
         ("timestamp", JStr timestamp);
         ("statusCode", JNum (dec status)) ].

Definition createErrorResponse (status : Z) (msg : string)
    (hdrs : list (string * string)) : M APIGatewayProxyResult :=
  let* timestamp := new_Date_toISOString in
  let* text := lift (stringify E (errorObject status msg timestamp)) in
  ret {| statusCode := status;
         headers := hdrs;
         responseBody := text |}.

Definition generateUniqueId : M string :=
  let* now := Date_now in
  let* r := Math_random_toString36 in
  ret ("todo-" ++ dec now ++ "-" ++ substr 2 9 r).

Definition handleGetTodos (event : APIGatewayProxyEvent) : M (Promise TodoResponse) :=
  async (
    try_catch
      (let* c1 := new_Date_toISOString in
       let* u1 := new_Date_toISOString in
       let* c2 := new_Date_toISOString in
       let* u2 := new_Date_toISOString in
       let mockTodos :=
         [ {| id := Some "1"; content := Some (JStr "サンプルTodo 1");
              isDone := Some (JBool false);
              createdAt := Some c1; updatedAt := Some u1 |};
           {| id := Some "2"; content := Some (JStr "サンプルTodo 2");
              isDone := Some (JBool true);
              createdAt := Some c2; updatedAt := Some u2 |} ] in
       ret {| success := true;
              data := Some (Many mockTodos);
              message := Some "Todoアイテムの取得に成功しました";
              error := None |})
      (fun _ => ret (failure "Todoアイテムの取得に失敗しました"))).

(** [typeof v === 'string']. *)
Definition is_string (v : jsval) : bool :=
  match v with
  | Some (JStr _) => true
  | _ => false
  end.

Definition handleCreateTodo (event : APIGatewayProxyEvent) : M (Promise TodoResponse) :=
  async (
    try_catch
      (match body event with
       | Some s =>
           if nonempty s then
             let* todoData := parse E s in
             let* c := lift (Get todoData "content") in
             if negb (truthy E c) || negb (is_string c) then
               ret (failure "contentフィールドは必須で、文字列である必要があります")
             else
               let* newId := generateUniqueId in
               let* d := lift (Get todoData "isDone") in
               let* created := new_Date_toISOString in
               let* updated := new_Date_toISOString in
               let newTodo :=
                 {| id := Some newId;
                    content := c;
                    isDone := Some (or_else E d (JBool false));
                    createdAt := Some created;
                    updatedAt := Some updated |} in
               ret {| success := true;
                      data := Some (One newTodo);
                      message := Some "Todoアイテムの作成に成功しました";
                      error := None |}
           else ret (failure "リクエストボディが必要です")
       | None => ret (failure "リクエストボディが必要です")
       end)
      (fun _ => ret (failure "Todoアイテムの作成に失敗しました"))).

Definition handleUpdateTodo (event : APIGatewayProxyEvent) : M (Promise TodoResponse) :=
  async (
    try_catch
      (let todoId := opt_get (pathParameters event) "id" in
       match todoId with
       | Some i =>
           if nonempty i then
             match body event with
             | Some s =>
                 if nonempty s then
                   let* updateData := parse E s in
                   let* c := lift (Get updateData "content") in
                   let* d := lift (Get updateData "isDone") in
                   let* updated := new_Date_toISOString in
                   let updatedTodo :=
                     {| id := Some i;
                        content := Some (or_else E c (JStr "デフォルトコンテンツ"));
                        isDone := Some (or_else E d (JBool false));
                        createdAt := Some "2024-01-01T00:00:00.000Z";
                        updatedAt := Some updated |} in
                   ret {| success := true;
                          data := Some (One updatedTodo);
                          message := Some "Todoアイテムの更新に成功しました";
                          error := None |}
                 else ret (failure "リクエストボディが必要です")
             | None => ret (failure "リクエストボディが必要です")
             end
           else ret (failure "TodoアイテムのIDが必要です")
       | None => ret (failure "TodoアイテムのIDが必要です")
       end)
      (fun _ => ret (failure "Todoアイテムの更新に失敗しました"))).

Definition handleDeleteTodo (event : APIGatewayProxyEvent) : M (Promise TodoResponse) :=
  async (
    try_catch
      (let todoId := opt_get (pathParameters event) "id" in
       match todoId with
       | Some i =>
           if nonempty i then
             ret {| success := true;
                    data := None;
                    message := Some ("Todoアイテム（ID: " ++ i ++ "）の削除に成功しました");
                    error := None |}
           else ret (failure "TodoアイテムのIDが必要です")
       | None => ret (failure "TodoアイテムのIDが必要です")
       end)
      (fun _ => ret (failure "Todoアイテムの削除に失敗しました"))).

(** The tail of [handler] after the [switch]. *)
Definition respond (result : TodoResponse) : M APIGatewayProxyResult :=
  let* text := lift (stringify E (TodoResponse_json result)) in
  ret {| statusCode := if success result then 200 else 400;
         headers := corsHeaders;
         responseBody := text |}.

(** [handler].  The first clock reading belongs to the opening
    [console.log] (diagnostic output itself is not modelled).  Each
    operation is awaited inside the [try] block. *)
Definition handler (event : APIGatewayProxyEvent)
  : M (Promise APIGatewayProxyResult) :=
  async (
    let* _ := new_Date_toISOString in
    try_catch
      (if String.eqb (httpMethod event) "OPTIONS" then
         ret {| statusCode := 200; headers := corsHeaders; responseBody := EmptyString |}
       else if String.eqb (httpMethod event) "GET" then
         let* p := handleGetTodos event in
         let* result := await p in respond result
       else if String.eqb (httpMethod event) "POST" then
         let* p := handleCreateTodo event in
         let* result := await p in respond result
       else if String.eqb (httpMethod event) "PUT" then
         let* p := handleUpdateTodo event in
         let* result := await p in respond result
       else if String.eqb (httpMethod event) "DELETE" then
         let* p := handleDeleteTodo event in
         let* result := await p in respond result
       else
         createErrorResponse 405 "メソッドが許可されていません" corsHeaders)
      (fun _ =>
         createErrorResponse 500 "サーバー内部エラーが発生しました"
           [ ("Content-Type", "application/json");
             ("Access-Control-Allow-Origin", "*") ])).

End Handler.
End TodoProcessor.

(** ** A reference engine

    An executable [JSON.parse] (ECMA-404 grammar) and Number semantics, used to
    run the handlers on concrete events.  The theorems below hold for every
    [Engine]; this one supplies the examples. *)

Module Reference.

Definition code (c : ascii) : N := N_of_ascii c.

Definition is_ws (c : ascii) : bool :=
  let n := code c in ((n =? 32) || (n =? 9) || (n =? 10) || (n =? 13))%N.

Definition is_digit (c : ascii) : bool :=
  let n := code c in ((48 <=? n) && (n <=? 57))%N.

Fixpoint skip_ws (s : string) : string :=
  match s with
  | String c r => if is_ws c then skip_ws r else s
  | EmptyString => s
  end.

Definition hex_value (c : ascii) : option N :=
  let n := code c in
  if ((48 <=? n) && (n <=? 57))%N then Some (n - 48)%N
  else if ((97 <=? n) && (n <=? 102))%N then Some (n - 87)%N
  else if ((65 <=? n) && (n <=? 70))%N then Some (n - 55)%N
  else None.

(** A character of a string literal: a byte copied from the text, or a
    UTF-16 code unit written as a [\u] escape. *)
Inductive piece : Type :=
| Raw (c : ascii)
| Unit16 (n : N).

Definition simple_escape (c : ascii) : option ascii :=
  let n := code c in
  if (n =? 34)%N then Some DQUOTE
  else if (n =? 92)%N then Some BACKSLASH
  else if (n =? 47)%N then Some "/"%char
  else if (n =? 98)%N then Some "008"%char
  else if (n =? 102)%N then Some "012"%char
  else if (n =? 110)%N then Some "010"%char
  else if (n =? 114)%N then Some "013"%char
  else if (n =? 116)%N then Some "009"%char
  else None.

(** The pieces of a string literal after its opening quote, and the text
    after its closing quote. *)
Fixpoint string_pieces (s : string) : option (list piece * string) :=
  match s with
  | EmptyString => None
  | String c r =>
      if (code c =? 34)%N then Some ([], r)
      else if (code c <? 32)%N then None
      else if (code c =? 92)%N then
        match r with
        | String e r1 =>
            if (code e =? 117)%N then
              match r1 with
              | String h1 (String h2 (String h3 (String h4 r2))) =>
                  match hex_value h1, hex_value h2, hex_value h3, hex_value h4 with
                  | Some a, Some b, Some c', Some d =>
                      match string_pieces r2 with
                      | Some (ps, rest) =>
                          Some (Unit16 (((a * 16 + b) * 16 + c') * 16 + d)%N :: ps, rest)
                      | None => None
                      end
                  | _, _, _, _ => None
                  end
              | _ => None
              end
            else
              match simple_escape e with
              | Some x =>
                  match string_pieces r1 with
                  | Some (ps, rest) => Some (Raw x :: ps, rest)
                  | None => None
                  end
              | None => None
              end
        | EmptyString => None
        end
      else
        match string_pieces r with
        | Some (ps, rest) => Some (Raw c :: ps, rest)
        | None => None
        end
  end.

Definition byte (n : N) : ascii := ascii_of_N n.

(** UTF-8 encoding of a code point (a lone surrogate is encoded like any
    other three-byte code point). *)
Definition utf8 (cp : N) : string :=
  (if cp <? 128 then str1 (byte cp)
   else if cp <? 2048 then
     String (byte (192 + cp / 64)) (str1 (byte (128 + cp mod 64)))
   else if cp <? 65536 then
     String (byte (224 + cp / 4096))
       (String (byte (128 + cp / 64 mod 64)) (str1 (byte (128 + cp mod 64))))
   else
     String (byte (240 + cp / 262144))
       (String (byte (128 + cp / 4096 mod 64))
          (String (byte (128 + cp / 64 mod 64)) (str1 (byte (128 + cp mod 64))))))%N.

Definition is_high (n : N) : bool := ((55296 <=? n) && (n <=? 56319))%N.
Definition is_low (n : N) : bool := ((56320 <=? n) && (n <=? 57343))%N.

Fixpoint assemble (ps : list piece) : string :=
  match ps with
  | [] => EmptyString
  | Raw c :: r => String c (assemble r)
  | Unit16 hi :: r =>
      match r with
      | Unit16 lo :: r' =>
          if is_high hi && is_low lo then
            utf8 (65536 + (hi - 55296) * 1024 + (lo - 56320))%N ++ assemble r'
          else utf8 hi ++ assemble r
      | _ => utf8 hi ++ assemble r
      end
  end.

Definition string_literal (s : string) : option (string * string) :=
  match string_pieces s with
  | Some (ps, rest) => Some (assemble ps, rest)
  | None => None
  end.

(** *** Number tokens *)

Fixpoint span_digits (s : string) : string * string :=
  match s with
  | String c r =>
      if is_digit c then let (d, rest) := span_digits r in (String c d, rest)
      else (EmptyString, s)
  | EmptyString => (EmptyString, EmptyString)
  end.

(** Splits a number token off the front of the text. *)
Definition number_token (s : string) : option (string * string) :=
  let (sign, s1) :=
    match s with
    | String c r => if (code c =? 45)%N then ("-", r) else (EmptyString, s)
    | EmptyString => (EmptyString, s)
    end in
  let (int, s2) := span_digits s1 in
  match int with
  | EmptyString => None
  | String d more =>
      if (code d =? 48)%N && nonempty more then None
      else
        let frac :=
          match s2 with
          | String c r =>
              if (code c =? 46)%N then
                let (f, s3) := span_digits r in
                if nonempty f then Some ("." ++ f, s3) else None
              else Some (EmptyString, s2)
          | EmptyString => Some (EmptyString, s2)
          end in
        match frac with
        | None => None
        | Some (f, s3) =>
            let expo :=
              match s3 with
              | String c r =>
                  if ((code c =? 101) || (code c =? 69))%N then
                    let (sg, r') :=
                      match r with
                      | String c' r'' =>
                          if ((code c' =? 43) || (code c' =? 45))%N
                          then (str1 c', r'') else (EmptyString, r)
                      | EmptyString => (EmptyString, r)
                      end in
                    let (x, s4) := span_digits r' in
                    if nonempty x then Some (str1 c ++ sg ++ x, s4) else None
                  else Some (EmptyString, s3)
              | EmptyString => Some (EmptyString, s3)
              end in
            match expo with
            | None => None
            | Some (x, s4) => Some (sign ++ int ++ f ++ x, s4)
            end
        end
  end.

(** *** Objects: own properties in enumeration order *)

Fixpoint all_digits (s : string) : bool :=
  match s with
  | EmptyString => true
  | String c r => is_digit c && all_digits r
  end.

Fixpoint digits_value (acc : N) (s : string) : N :=
  match s with
  | EmptyString => acc
  | String c r => digits_value (acc * 10 + (code c - 48))%N r
  end.

(** An array index: a canonical decimal below 2^32 - 1. *)
Definition array_index (k : string) : option N :=
  match k with
  | EmptyString => None
  | String c r =>
      if all_digits k && negb ((code c =? 48)%N && nonempty r)
         && (Nat.leb (String.length k) 10) && (digits_value 0 k <? 4294967295)%N
      then Some (digits_value 0 k) else None
  end.

Fixpoint replace_prop (k : string) (v : json) (props : list (string * json))
  : list (string * json) :=
  match props with
  | [] => []
  | (k', v') :: r =>
      if String.eqb k k' then (k, v) :: r else (k', v') :: replace_prop k v r
  end.

Fixpoint insert_index (i : N) (k : string) (v : json) (props : list (string * json))
  : list (string * json) :=
  match props with
  | [] => [(k, v)]
  | (k', v') :: r =>
      match array_index k' with
      | Some j => if (j <? i)%N then (k', v') :: insert_index i k v r
                  else (k, v) :: props
      | None => (k, v) :: props
      end
  end.

(** Index keys come first in ascending order, then the other keys in
    the order of their first definition; a repeated key keeps its place
    and takes the later value. *)
Definition define_prop (props : list (string * json)) (kv : string * json)
  : list (string * json) :=
  let (k, v) := kv in
  if has_key k props then replace_prop k v props
  else match array_index k with
       | Some i => insert_index i k v props
       | None => props ++ [(k, v)]
       end.

Definition object_of (members : list (string * json)) : json :=
  JObj (fold_left define_prop members []).

Definition expect (lit : string) (v : json) (s : string) : option (json * string) :=
  if is_prefix lit s then Some (v, drop_str (String.length lit) s) else None.

(** *** Values *)

Fixpoint value (fuel : nat) (s : string) {struct fuel} : option (json * string) :=
  match fuel with
  | O => None
  | S f =>
      match skip_ws s with
      | EmptyString => None
      | String c r as t =>
          let n := code c in
          if (n =? 110)%N then expect "null" JNull t
          else if (n =? 116)%N then expect "true" (JBool true) t
          else if (n =? 102)%N then expect "false" (JBool false) t
          else if (n =? 34)%N then
            match string_literal r with
            | Some (str, rest) => Some (JStr str, rest)
            | None => None
            end
          else if (n =? 91)%N then
            match skip_ws r with
            | String c' r' =>
                if (code c' =? 93)%N then Some (JArr [], r')
                else match elements f r with
                     | Some (vs, rest) => Some (JArr vs, rest)
                     | None => None
                     end
            | EmptyString => None
            end
          else if (n =? 123)%N then
            match skip_ws r with
            | String c' r' =>
                if (code c' =? 125)%N then Some (JObj [], r')
                else match members f r with
                     | Some (ms, rest) => Some (object_of ms, rest)
                     | None => None
                     end
            | EmptyString => None
            end
          else
            match number_token t with
            | Some (tok, rest) => Some (JNum tok, rest)
            | None => None
            end
      end
  end

with elements (fuel : nat) (s : string) {struct fuel} : option (list json * string) :=
  match fuel with
  | O => None
  | S f =>
      match value f s with
      | Some (v, r) =>
          match skip_ws r with
          | String c r' =>
              if (code c =? 44)%N then
                match elements f r' with
                | Some (vs, rest) => Some (v :: vs, rest)
                | None => None
                end
              else if (code c =? 93)%N then Some ([v], r')
              else None
          | EmptyString => None
          end
      | None => None
      end
  end

with members (fuel : nat) (s : string) {struct fuel}
  : option (list (string * json) * string) :=
  match fuel with
  | O => None
  | S f =>
      match skip_ws s with
      | String q r =>
          if (code q =? 34)%N then
            match string_literal r with
            | Some (k, r1) =>
                match skip_ws r1 with
                | String colon r2 =>
                    if (code colon =? 58)%N then
                      match value f r2 with
                      | Some (v, r3) =>
                          match skip_ws r3 with
                          | String c r4 =>
                              if (code c =? 44)%N then
                                match members f r4 with
                                | Some (ms, rest) => Some ((k, v) :: ms, rest)
                                | None => None
                                end
                              else if (code c =? 125)%N then Some ([(k, v)], r4)
                              else None
                          | EmptyString => None
                          end
                      | None => None
                      end
                    else None
                | EmptyString => None
                end
            | None => None
            end
          else None
      | EmptyString => None
      end
  end.

(** [JSON.parse]: one value, surrounded by optional white space.  Every
    recursive call follows the consumption of at least one character, so
    twice the length of the text bounds the depth of the recursion. *)
Definition parse_text (s : string) : option json :=
  match value (2 * String.length s + 2) s with
  | Some (v, rest) =>
      match skip_ws rest with
      | EmptyString => Some v
      | String _ _ => None
      end
  | None => None
  end.

(** *** Numbers

    A token denotes [mantissa * 10 ^ exponent] up to sign. *)
Definition decimal_of (tok : string) : Z * Z :=
  let unsigned :=
    match tok with
    | String c r => if (code c =? 45)%N then r else tok
    | EmptyString => tok
    end in
  let (int, s1) := span_digits unsigned in
  let (frac, s2) :=
    match s1 with
    | String c r => if (code c =? 46)%N then span_digits r else (EmptyString, s1)
    | EmptyString => (EmptyString, s1)
    end in
  let expo :=
    match s2 with
    | String _ (String c r) =>
        if (code c =? 45)%N then - Z.of_N (digits_value 0 r)
        else if (code c =? 43)%N then Z.of_N (digits_value 0 r)
        else Z.of_N (digits_value 0 (String c r))
    | _ => 0
    end in
  (Z.of_N (digits_value 0 (int ++ frac)), expo - Z.of_nat (String.length frac)).

Definition is_negative (tok : string) : bool := is_prefix "-" tok.

(** An IEEE 754 double other than NaN, up to sign: zero, [f * 2 ^ p] with
    [f] below 2^53 (at least 2^52 unless [p] is -1074), or an infinity. *)
Inductive double : Type :=
| DZero
| DFinite (f p : Z)
| DInfinity.

(** Quotient, remainder and divisor of [num / den / 2 ^ p]. *)
Definition scaled (num den p : Z) : Z * Z * Z :=
  let n := if p <? 0 then num * 2 ^ (- p) else num in
  let d := if p <? 0 then den else den * 2 ^ p in
  (n / d, n mod d, d).

(** To nearest, ties to even. *)
Definition round_half_even (q r d : Z) : Z :=
  if (d <? 2 * r) || ((2 * r =? d) && Z.odd q) then q + 1 else q.

(** The double nearest to [mant * 10 ^ exp10], for [mant >= 0].  The two
    early exits keep the powers of ten small: beyond 10^400 lies an
    infinity, below 10^-400 zero. *)
Definition to_double (mant exp10 : Z) : double :=
  if mant =? 0 then DZero
  else if 400 <? exp10 then DInfinity
  else if exp10 + Z.log2 mant + 1 <? -400 then DZero
  else
    let num := if exp10 <? 0 then mant else mant * 10 ^ exp10 in
    let den := if exp10 <? 0 then 10 ^ (- exp10) else 1 in
    let p0 := Z.log2 num - Z.log2 den - 52 in
    let '(q0, _, _) := scaled num den p0 in
    let p1 := Z.max (if q0 <? 2 ^ 52 then p0 - 1 else p0) (-1074) in
    let '(q, r, d) := scaled num den p1 in
    let f1 := round_half_even q r d in
    let f := if f1 =? 2 ^ 53 then 2 ^ 52 else f1 in
    let p := if f1 =? 2 ^ 53 then p1 + 1 else p1 in
    if f =? 0 then DZero
    else if 971 <? p then DInfinity
    else DFinite f p.

Definition same_double (x y : double) : bool :=
  match x, y with
  | DZero, DZero => true
  | DInfinity, DInfinity => true
  | DFinite f p, DFinite f' p' => (f =? f') && (p =? p')
  | _, _ => false
  end.

(** [xn / xd >= 10 ^ n]. *)
Definition ge_pow10 (xn xd n : Z) : bool :=
  if n <? 0 then xd <=? xn * 10 ^ (- n) else xd * 10 ^ n <=? xn.

(** The [n] with [10 ^ (n - 1) <= xn / xd < 10 ^ n], found from an estimate
    that is off by two at most. *)
Fixpoint magnitude (fuel : nat) (xn xd n : Z) : Z :=
  match fuel with
  | O => n
  | S fuel' =>
      if ge_pow10 xn xd n then magnitude fuel' xn xd (n + 1)
      else if ge_pow10 xn xd (n - 1) then n
      else magnitude fuel' xn xd (n - 1)
  end.

(** The shortest decimal [s * 10 ^ (n - k)], [s] of [k] digits, that rounds
    to the double [x = xn / xd]; of two such, the one nearer to [x].
    Seventeen digits always suffice. *)
Fixpoint shortest (fuel : nat) (k : Z) (x : double) (xn xd n : Z) : Z * Z :=
  match fuel with
  | O => (0, n)
  | S fuel' =>
      let e := k - n in
      let num := if e <? 0 then xn else xn * 10 ^ e in
      let den := if e <? 0 then xd * 10 ^ (- e) else xd in
      let lo := num / den in
      let ok c := same_double (to_double c (n - k)) x in
      let pick :=
        match ok lo, ok (lo + 1) with
        | true, true => Some (round_half_even lo (num mod den) den)
        | true, false => Some lo
        | false, true => Some (lo + 1)
        | false, false => None
        end in
      match pick with
      | Some s => if s =? 10 ^ k then (1, n + 1) else (s, n)
      | None => shortest fuel' (k + 1) x xn xd n
      end
  end.

Definition zeros (n : Z) : string :=
  String.concat EmptyString (List.repeat "0" (Z.to_nat n)).

(** The layout of [Number::toString] for the digits [s] and the decimal
    exponent [n] (the value is [0.s * 10 ^ n]). *)
Definition layout (s n : Z) : string :=
  let ds := dec s in
  let k := Z.of_nat (String.length ds) in
  if (k <=? n) && (n <=? 21) then ds ++ zeros (n - k)
  else if (0 <? n) && (n <=? 21) then
    take_str (Z.to_nat n) ds ++ "." ++ drop_str (Z.to_nat n) ds
  else if (-6 <? n) && (n <=? 0) then "0." ++ zeros (- n) ++ ds
  else
    let e := n - 1 in
    let es := (if 0 <=? e then "+" else "-") ++ dec (Z.abs e) in
    if k =? 1 then ds ++ "e" ++ es
    else take_str 1 ds ++ "." ++ drop_str 1 ds ++ "e" ++ es.

Definition double_of (tok : number) : double :=
  let (m, e) := decimal_of tok in to_double m e.

Definition nonzero (tok : number) : bool :=
  match double_of tok with DZero => false | _ => true end.

Definition finite (tok : number) : bool :=
  match double_of tok with DInfinity => false | _ => true end.

(** [Number::toString] of the double that the token denotes. *)
Definition number_string (tok : number) : string :=
  let sign := if is_negative tok then "-" else EmptyString in
  match double_of tok with
  | DZero => "0"
  | DInfinity => sign ++ "Infinity"
  | DFinite f p =>
      let xn := if p <? 0 then f else f * 2 ^ p in
      let xd := if p <? 0 then 2 ^ (- p) else 1 in
      let n := magnitude 6 xn xd ((Z.log2 xn - Z.log2 xd) * 30103 / 100000) in
      let (s, n') := shortest 17 1 (DFinite f p) xn xd n in
      sign ++ layout s n'
  end.

(** The reference engine gets through a thousand levels of nesting; the
    number differs from engine to engine and with the stack already in
    use. *)
Definition nesting_limit : nat := 1000.

Definition nesting_limit_min : (3 <= nesting_limit)%nat.
Proof. unfold nesting_limit. lia. Qed.

Definition engine : Engine :=
  {| JSON_parse := parse_text;
     Number_truthy := nonzero;
     Number_toString := number_string;
     Number_isFinite := finite;
     stringify_depth := nesting_limit;
     join_depth := nesting_limit;
     stringify_depth_min := nesting_limit_min |}.

End Reference.

(** * Properties *)

#[local] Arguments JSON_stringify : simpl never.
#[local] Arguments stringify : simpl never.
#[local] Arguments toISOString : simpl never.
#[local] Arguments dec : simpl never.

(** ** Worlds and events used in examples *)

(** A world whose clock stands at 2024-01-01T00:00:00.000Z and whose random
    generator keeps returning the same value. *)
Definition frozen_world : World :=
  {| FUNCTION_NAME := Some "hello-world";
     clock := fun _ => 1704067200000;
     random := fun _ => "0.4fzyo82mvyr";
     clock_reads := O;
     random_draws := O |}.

Definition request (method : string) (query params : option (gmap string string))
    (text : option string) : APIGatewayProxyEvent :=
  {| httpMethod := method; path := "/"; queryStringParameters := query;
     pathParameters := params; body := text |}.

Definition get_request (name : string) : APIGatewayProxyEvent :=
  request "GET" (Some {[ "name" := name ]}) None None.

Definition create_request (text : string) : APIGatewayProxyEvent :=
  request "POST" None None (Some text).

Definition update_request (i text : string) : APIGatewayProxyEvent :=
  request "PUT" None (Some {[ "id" := i ]}) (Some text).

(** A second process whose clock is one millisecond ahead. *)
Definition later_world : World :=
  {| FUNCTION_NAME := Some "hello-world";
     clock := fun _ => 1704067200001;
     random := fun _ => "0.4fzyo82mvyr";
     clock_reads := O;
     random_draws := O |}.

(** ** Vocabulary of the statements *)

(** The [content] of a parsed body when it is a string; [None] when the
    body is not an object, has no [content], or has one of another type. *)
Definition content_string (v : json) : option string :=
  match v with
  | JObj props =>
      match assoc "content" props with
      | Some (JStr s) => Some s
      | _ => None
      end
  | _ => None
  end.

(** [v.k] when it does not throw. *)
Definition field (v : json) (k : string) : jsval :=
  match v with
  | JObj props => assoc k props
  | _ => None
  end.

(** The invariant of the response envelope. *)
Definition envelope_ok (r : TodoProcessor.TodoResponse) : Prop :=
  TodoProcessor.success r = false ->
  (exists msg, TodoProcessor.error r = Some msg) /\ TodoProcessor.data r = None.

(** The body of a create request is rejected: it is absent (null or
    empty), or it parses to a value whose [content] is missing, empty or
    not a string. *)
Definition rejected_create (E : Engine) (event : APIGatewayProxyEvent) : Prop :=
  falsy_str (body event) = true \/
  exists text v,
    body event = Some text /\ JSON_parse E text = Some v /\
    falsy_str (content_string v) = true.

(** Decimal digits only. *)
Fixpoint digits (s : string) : bool :=
  match s with
  | EmptyString => true
  | String c r => Reference.is_digit c && digits r
  end.

(** The body of a create request is accepted: it is present and parses
    to an object whose [content] is the non-empty string [s]. *)
Definition accepted_create (E : Engine) (event : APIGatewayProxyEvent) (s : string)
  : Prop :=
  exists text v,
    body event = Some text /\ nonempty text = true /\
    JSON_parse E text = Some v /\
    content_string v = Some s /\ nonempty s = true.

Definition created (item : TodoProcessor.TodoItem) : TodoProcessor.TodoResponse :=
  {| TodoProcessor.success := true;
     TodoProcessor.data := Some (TodoProcessor.One item);
     TodoProcessor.message := Some "Todoアイテムの作成に成功しました";
     TodoProcessor.error := None |}.

Definition updated (item : TodoProcessor.TodoItem) : TodoProcessor.TodoResponse :=
  {| TodoProcessor.success := true;
     TodoProcessor.data := Some (TodoProcessor.One item);
     TodoProcessor.message := Some "Todoアイテムの更新に成功しました";
     TodoProcessor.error := None |}.

(** Characters that [JSON.stringify] copies unchanged: everything but the
    double quote, the backslash and the control characters. *)
Definition plain_char (c : ascii) : bool :=
  let n := N_of_ascii c in
  (negb (n =? 34) && negb (n =? 92) && negb (n <? 32))%N.

Fixpoint plain (s : string) : bool :=
  match s with
  | EmptyString => true
  | String c r => plain_char c && plain r
  end.

(** The name that [handleGetRequest] greets. *)
Definition greeted_name (event : APIGatewayProxyEvent) : string :=
  str_or (opt_get (queryStringParameters event) "name") "World".

(** The world after one reading of the clock, as the opening [console.log]
    of either handler leaves it. *)
Definition logged (w : World) : World := snd (Date_now w).

(** The response that the tail of the todo [handler] builds from an
    envelope. *)
Definition envelope_response (E : Engine) (result : TodoProcessor.TodoResponse)
  : APIGatewayProxyResult :=
  {| statusCode := if TodoProcessor.success result then 200 else 400;
     headers := TodoProcessor.corsHeaders;
     responseBody := JSON_stringify E (TodoProcessor.TodoResponse_json result) |}.

(** The operation that the [switch] of the todo [handler] selects. *)
Definition operation (E : Engine) (event : APIGatewayProxyEvent)
  : option (M (Promise TodoProcessor.TodoResponse)) :=
  if String.eqb (httpMethod event) "GET" then Some (TodoProcessor.handleGetTodos event)
  else if String.eqb (httpMethod event) "POST" then Some (TodoProcessor.handleCreateTodo E event)
  else if String.eqb (httpMethod event) "PUT" then Some (TodoProcessor.handleUpdateTodo E event)
  else if String.eqb (httpMethod event) "DELETE" then Some (TodoProcessor.handleDeleteTodo event)
  else None.

(** The 500 response that the outer [catch] of the todo [handler] builds
    in world [w]. *)
Definition internal_error_response (E : Engine) (w : World) : APIGatewayProxyResult :=
  {| statusCode := 500;
     headers := [ ("Content-Type", "application/json");
                  ("Access-Control-Allow-Origin", "*") ];
     responseBody :=
       JSON_stringify E
         (TodoProcessor.errorObject 500 "サーバー内部エラーが発生しました"
            (toISOString (clock w (clock_reads w)))) |}.

(** [n] empty arrays, one inside the other, as JSON text. *)
Definition nested_arrays_text (n : nat) : string :=
  String.concat EmptyString (List.repeat "[" n)
  ++ String.concat EmptyString (List.repeat "]" n).

(** One of the three status codes that a handler's [switch] can lead to. *)
Definition dispatch_status (code : Z) : Prop :=
  code = 200 \/ code = 400 \/ code = 405.

(** ** Basic facts *)

(** What the handlers build from their own literals is serialised by every
    engine. *)
Lemma stringify_shallow (E : Engine) (v : json) :
  (depth v <= 3)%nat -> stringify E v = Normal (JSON_stringify E v).
Proof.
  intros H. unfold stringify. pose proof (stringify_depth_min E) as Hmin.
  destruct (Nat.leb_spec (depth v) (stringify_depth E)); [reflexivity | lia].
Qed.

Lemma stringify_within (E : Engine) (v : json) :
  (depth v <= stringify_depth E)%nat -> stringify E v = Normal (JSON_stringify E v).
Proof.
  intros H. unfold stringify.
  destruct (Nat.leb_spec (depth v) (stringify_depth E)); [reflexivity | lia].
Qed.

Lemma stringify_beyond (E : Engine) (v : json) :
  (stringify_depth E < depth v)%nat -> stringify E v = Throw RangeError.
Proof.
  intros H. unfold stringify.
  destruct (Nat.leb_spec (depth v) (stringify_depth E)); [lia | reflexivity].
Qed.

Ltac shallow := repeat (rewrite stringify_shallow by (lazy; lia)).

Ltac unfold_run :=
  cbv [settled async bind try_catch ret throw lift await resolve parse
       new_Date_toISOString Date_now Math_random_toString36 process_env_FUNCTION_NAME
       HelloWorld.handler HelloWorld.handleGetRequest HelloWorld.handlePostRequest
       HelloWorld.parseRequestBody HelloWorld.createErrorResponse HelloWorld.functionName
       TodoProcessor.handler TodoProcessor.respond TodoProcessor.createErrorResponse
       TodoProcessor.handleGetTodos TodoProcessor.handleCreateTodo
       TodoProcessor.handleUpdateTodo TodoProcessor.handleDeleteTodo
       TodoProcessor.generateUniqueId fst snd].

Ltac crunch := repeat (progress (unfold_run; simpl; shallow)); try reflexivity.

Lemma eqb_lit_false (s lit : string) : s <> lit -> String.eqb s lit = false.
Proof. apply String.eqb_neq. Qed.

Lemma falsy_str_cases (o : option string) :
  falsy_str o = true -> o = None \/ o = Some EmptyString.
Proof.
  destruct o as [[|c s]|]; simpl; intros H; auto; discriminate.
Qed.

(** ** Method dispatch *)

(** What the two handlers do with an OPTIONS request: the todo handler
    answers it itself, with status 200, the CORS headers and an empty body;
    the greeting handler has no such branch, so the request takes the
    [default] branch of its [switch] and gets the 405 error response. *)
Theorem options_preflight (E : Engine) (w : World) (event : APIGatewayProxyEvent) :
  httpMethod event = "OPTIONS" ->
  settled (TodoProcessor.handler E event) w =
    Normal {| statusCode := 200;
              headers := TodoProcessor.corsHeaders;
              responseBody := EmptyString |}
  /\
  settled (HelloWorld.handler E event) w =
    Normal {| statusCode := 405;
              headers := HelloWorld.responseHeaders;
              responseBody :=
                JSON_stringify E
                  (HelloWorld.errorObject 405 "メソッドが許可されていません"
                     (toISOString (clock w (S (clock_reads w))))) |}.
Proof.
  intros Hm. split.
  - unfold settled, TodoProcessor.handler. rewrite Hm. reflexivity.
  - unfold settled, HelloWorld.handler. rewrite Hm. crunch.
Qed.

Lemma options_preflight_witness :
  let event := request "OPTIONS" None None None in
  settled (TodoProcessor.handler Reference.engine event) frozen_world =
    Normal {| statusCode := 200;
              headers := TodoProcessor.corsHeaders;
              responseBody := EmptyString |}
  /\
  settled (HelloWorld.handler Reference.engine event) frozen_world =
    Normal {| statusCode := 405;
              headers := HelloWorld.responseHeaders;
              responseBody :=
                dq "{'error':'メソッドが許可されていません','timestamp':'2024-01-01T00:00:00.000Z','statusCode':405}" |}.
Proof.
  intros event.
  exact (options_preflight Reference.engine frozen_world event eq_refl).
Defined.

(** C1 fails for the greeting handler: its answer to an OPTIONS request is
    neither a 200 nor empty; it is the 405 error response, although the
    headers of that very response list OPTIONS among the allowed methods
    and the todo handler answers the same request with 200. *)
Lemma greeting_options_not_200 :
  exists r,
    settled (HelloWorld.handler Reference.engine (request "OPTIONS" None None None))
            frozen_world = Normal r /\
    statusCode r = 405 /\
    statusCode r <> 200 /\
    responseBody r <> EmptyString /\
    In ("Access-Control-Allow-Methods", "GET, POST, OPTIONS") (headers r).
Proof.
  eexists. split; [reflexivity |]. repeat split; try discriminate.
  simpl. auto.
Qed.

(** C8: a method outside the ones a handler dispatches on gets a 405
    response from that handler. *)
Theorem unsupported_method_405 (E : Engine) (w : World) (event : APIGatewayProxyEvent) :
  (httpMethod event <> "GET" -> httpMethod event <> "POST" ->
   exists r, settled (HelloWorld.handler E event) w = Normal r /\ statusCode r = 405)
  /\
  (httpMethod event <> "GET" -> httpMethod event <> "POST" ->
   httpMethod event <> "PUT" -> httpMethod event <> "DELETE" ->
   httpMethod event <> "OPTIONS" ->
   exists r, settled (TodoProcessor.handler E event) w = Normal r /\ statusCode r = 405).
Proof.
  split.
  - intros H1 H2. unfold settled, HelloWorld.handler.
    rewrite (eqb_lit_false _ _ H1), (eqb_lit_false _ _ H2). crunch.
    eexists. split; reflexivity.
  - intros H1 H2 H3 H4 H5. unfold settled, TodoProcessor.handler.
    rewrite (eqb_lit_false _ _ H1), (eqb_lit_false _ _ H2), (eqb_lit_false _ _ H3),
      (eqb_lit_false _ _ H4), (eqb_lit_false _ _ H5). crunch.
    eexists. split; reflexivity.
Qed.

Lemma unsupported_method_405_witness :
  let event := request "PATCH" None None None in
  (exists r, settled (HelloWorld.handler Reference.engine event) frozen_world = Normal r
             /\ statusCode r = 405)
  /\
  (exists r, settled (TodoProcessor.handler Reference.engine event) frozen_world = Normal r
             /\ statusCode r = 405).
Proof.
  intros event.
  destruct (unsupported_method_405 Reference.engine frozen_world event) as [Hg Ht].
  split.
  - apply Hg; discriminate.
  - apply Ht; discriminate.
Defined.

(** ** The greeting handler on POST *)

(** The parsed body, as seen by the rest of [handlePostRequest]: an absent
    or empty body stands for the empty object. *)
Lemma parseRequestBody_absent (E : Engine) (w : World) (event : APIGatewayProxyEvent) :
  falsy_str (body event) = true ->
  HelloWorld.parseRequestBody E event w = (Normal (inr (JObj [])), w).
Proof.
  intros H. unfold HelloWorld.parseRequestBody.
  destruct (falsy_str_cases _ H) as [-> | ->]; reflexivity.
Qed.

(** C10: a POST request without a body (null or empty) is not an error; the
    body counts as the empty object and the answer is 200 with the message
    "Hello World!". *)
Theorem post_without_body_hello_world (E : Engine) (w : World)
    (event : APIGatewayProxyEvent) :
  httpMethod event = "POST" ->
  falsy_str (body event) = true ->
  settled (HelloWorld.handler E event) w =
    Normal {| statusCode := 200;
              headers := HelloWorld.responseHeaders;
              responseBody :=
                JSON_stringify E
                  (HelloWorld.postObject "Hello World!"
                     (toISOString (clock w (S (clock_reads w))))
                     (JObj [])
                     (str_or (FUNCTION_NAME w) "hello-world")) |}.
Proof.
  intros Hm Hb. unfold settled, HelloWorld.handler. rewrite Hm. simpl.
  unfold HelloWorld.handlePostRequest, async, bind at 1.
  unfold try_catch, bind. simpl.
  rewrite parseRequestBody_absent by exact Hb. crunch.
Qed.

Lemma post_without_body_hello_world_witness :
  settled (HelloWorld.handler Reference.engine (request "POST" None None None))
          frozen_world =
    Normal {| statusCode := 200;
              headers := HelloWorld.responseHeaders;
              responseBody :=
                dq "{'message':'Hello World!','timestamp':'2024-01-01T00:00:00.000Z','method':'POST','receivedData':{},'functionName':'hello-world'}" |}.
Proof.
  exact (post_without_body_hello_world Reference.engine frozen_world
           (request "POST" None None None) eq_refl eq_refl).
Defined.

Section GreetingPost.
Context (E : Engine) (w : World) (event : APIGatewayProxyEvent) (text : string).
Hypothesis Hmethod : httpMethod event = "POST".
Hypothesis Hbody : body event = Some text.
Hypothesis Hpresent : nonempty text = true.

(** X14: A body that is present but is not JSON gets the 400 response of the
    inner [catch] clause. *)
Lemma post_malformed_body_400 :
  JSON_parse E text = None ->
  settled (HelloWorld.handler E event) w =
    Normal {| statusCode := 400;
              headers := HelloWorld.responseHeaders;
              responseBody :=
                JSON_stringify E
                  (HelloWorld.errorObject 400 "リクエストボディが無効なJSON形式です"
                     (toISOString (clock w (S (clock_reads w))))) |}.
Proof.
  intros Hp. unfold_run. rewrite Hmethod. simpl.
  rewrite Hbody, Hpresent, Hp. crunch.
Qed.

(** X15: A body that parses to a value of well-formed text, nested less
    deeply than [JSON.stringify] gets through, whose [name] and [message]
    can be read and converted to strings, gets a 200 response combining the
    two. *)
Lemma post_parsed_body_200 (v : json) (name message : jsval) (s1 s2 : string) :
  JSON_parse E text = Some v ->
  well_formed v = true ->
  (depth v < stringify_depth E)%nat ->
  Get v "name" = Normal name ->
  Get v "message" = Normal message ->
  ToString E (or_else E message (JStr "Hello")) = Normal s1 ->
  ToString E (or_else E name (JStr "World")) = Normal s2 ->
  settled (HelloWorld.handler E event) w =
    Normal {| statusCode := 200;
              headers := HelloWorld.responseHeaders;
              responseBody :=
                JSON_stringify E
                  (HelloWorld.postObject (s1 ++ " " ++ s2 ++ "!")
                     (toISOString (clock w (S (clock_reads w))))
                     v
                     (str_or (FUNCTION_NAME w) "hello-world")) |}.
Proof.
  intros Hp _ Hd Hn Hm H1 H2. unfold_run. rewrite Hmethod. simpl.
  rewrite Hbody, Hpresent, Hp. simpl.
  rewrite Hn, Hm, H1, H2. simpl.
  rewrite stringify_within by (simpl; lia). reflexivity.
Qed.

(** A body that parses to [null] makes [requestBody.name] throw.  The
    [TypeError] is raised inside the promise that [handler] returns
    without awaiting, so neither [catch] clause sees it: the invocation
    fails and no response is produced. *)
Lemma post_null_rejected :
  JSON_parse E text = Some JNull ->
  settled (HelloWorld.handler E event) w = Throw TypeError.
Proof.
  intros Hp. unfold_run. rewrite Hmethod. simpl.
  rewrite Hbody, Hpresent, Hp. reflexivity.
Qed.

End GreetingPost.

(** C4 (second half, at the body [null]): the body parses as JSON, yet the
    handler does not answer 200; its promise is rejected with a
    [TypeError]. *)
Theorem post_null_body_no_response (w : World) :
  JSON_parse Reference.engine "null" = Some JNull /\
  settled (HelloWorld.handler Reference.engine
             (request "POST" None None (Some "null"))) w
  = Throw TypeError.
Proof.
  split; [reflexivity |].
  apply (post_null_rejected Reference.engine w _ "null"); reflexivity.
Qed.

(** The same failure for an object whose [name] has an own [toString]
    property, which cannot be converted to a string. *)
Example post_unprintable_name_rejected :
  settled (HelloWorld.handler Reference.engine
             (request "POST" None None (Some (dq "{'name':{'toString':1}}"))))
          frozen_world
  = Throw TypeError.
Proof. reflexivity. Qed.

Example post_malformed_example :
  exists r,
    settled (HelloWorld.handler Reference.engine
               (request "POST" None None (Some "{name:1}"))) frozen_world = Normal r
    /\ statusCode r = 400.
Proof. eexists. split; reflexivity. Qed.

Example post_greeting_example :
  settled (HelloWorld.handler Reference.engine
             (request "POST" None None (Some (dq "{'name':'Aiko','message':'Welcome'}"))))
          frozen_world
  = Normal {| statusCode := 200;
              headers := HelloWorld.responseHeaders;
              responseBody :=
                dq "{'message':'Welcome Aiko!','timestamp':'2024-01-01T00:00:00.000Z','method':'POST','receivedData':{'name':'Aiko','message':'Welcome'},'functionName':'hello-world'}" |}.
Proof. reflexivity. Qed.

(** ** The todo operations *)

Lemma failure_envelope_ok (msg : string) : envelope_ok (TodoProcessor.failure msg).
Proof. intros _. split; [exists msg |]; reflexivity. Qed.

Lemma success_envelope_ok (r : TodoProcessor.TodoResponse) :
  TodoProcessor.success r = true -> envelope_ok r.
Proof. unfold envelope_ok. intros H H'. rewrite H in H'. discriminate. Qed.

Create HintDb envelope.
#[local] Hint Resolve failure_envelope_ok success_envelope_ok : envelope.

Ltac run_operation :=
  unfold settled, TodoProcessor.handleGetTodos, TodoProcessor.handleCreateTodo,
    TodoProcessor.handleUpdateTodo, TodoProcessor.handleDeleteTodo,
    TodoProcessor.generateUniqueId, async, try_catch, bind, parse, lift, throw, ret;
  simpl.

Lemma Get_field (v : json) (k : string) :
  v <> JNull -> Get v k = Normal (field v k).
Proof. intros H. destruct v; try reflexivity. contradiction. Qed.

Lemma handleGetTodos_ok (event : APIGatewayProxyEvent) (w : World) :
  exists r, settled (TodoProcessor.handleGetTodos event) w = Normal r /\
            TodoProcessor.success r = true.
Proof. run_operation. eexists. split; reflexivity. Qed.

(** Every path through [handleCreateTodo] ends in a failure envelope or
    in a success. *)
Lemma handleCreateTodo_total (E : Engine) (event : APIGatewayProxyEvent) (w : World) :
  exists r, settled (TodoProcessor.handleCreateTodo E event) w = Normal r /\
            ((exists msg, r = TodoProcessor.failure msg) \/ TodoProcessor.success r = true).
Proof.
  run_operation.
  destruct (body event) as [s|]; [| eexists; split; [reflexivity | left; eauto]].
  destruct (nonempty s); [| eexists; split; [reflexivity | left; eauto]].
  destruct (JSON_parse E s) as [v|]; simpl; [| eexists; split; [reflexivity | left; eauto]].
  destruct (Get v "content") as [c|e]; simpl; [| eexists; split; [reflexivity | left; eauto]].
  destruct (negb (truthy E c) || negb (TodoProcessor.is_string c)); simpl;
    [eexists; split; [reflexivity | left; eauto] |].
  destruct (Get v "isDone") as [d|e]; simpl; eexists; split; try reflexivity; eauto.
Qed.

Lemma handleUpdateTodo_total (E : Engine) (event : APIGatewayProxyEvent) (w : World) :
  exists r, settled (TodoProcessor.handleUpdateTodo E event) w = Normal r /\
            ((exists msg, r = TodoProcessor.failure msg) \/ TodoProcessor.success r = true).
Proof.
  run_operation.
  destruct (opt_get (pathParameters event) "id") as [i|];
    [| eexists; split; [reflexivity | left; eauto]].
  destruct (nonempty i); [| eexists; split; [reflexivity | left; eauto]].
  destruct (body event) as [s|]; [| eexists; split; [reflexivity | left; eauto]].
  destruct (nonempty s); [| eexists; split; [reflexivity | left; eauto]].
  destruct (JSON_parse E s) as [v|]; simpl; [| eexists; split; [reflexivity | left; eauto]].
  destruct (Get v "content") as [c|e]; simpl; [| eexists; split; [reflexivity | left; eauto]].
  destruct (Get v "isDone") as [d|e]; simpl; eexists; split; try reflexivity; eauto.
Qed.

Lemma handleDeleteTodo_total (event : APIGatewayProxyEvent) (w : World) :
  exists r, settled (TodoProcessor.handleDeleteTodo event) w = Normal r /\
            ((exists msg, r = TodoProcessor.failure msg) \/ TodoProcessor.success r = true).
Proof.
  run_operation.
  destruct (opt_get (pathParameters event) "id") as [i|];
    [| eexists; split; [reflexivity | left; eauto]].
  destruct (nonempty i); eexists; split; try reflexivity; eauto.
Qed.

Lemma total_envelope_ok (r : TodoProcessor.TodoResponse) :
  (exists msg, r = TodoProcessor.failure msg) \/ TodoProcessor.success r = true ->
  envelope_ok r.
Proof. intros [[msg ->] | H]; auto with envelope. Qed.

(** C2: whatever the event, each of the four operations returns an
    envelope in which [success = false] comes with an [error] and without
    [data]; the object serialised by [createErrorResponse] has
    [success = false], carries the error message and has no [data]. *)
Theorem failure_envelope_invariant (E : Engine) (event : APIGatewayProxyEvent) (w : World) :
  (exists r, settled (TodoProcessor.handleGetTodos event) w = Normal r /\ envelope_ok r) /\
  (exists r, settled (TodoProcessor.handleCreateTodo E event) w = Normal r /\ envelope_ok r) /\
  (exists r, settled (TodoProcessor.handleUpdateTodo E event) w = Normal r /\ envelope_ok r) /\
  (exists r, settled (TodoProcessor.handleDeleteTodo event) w = Normal r /\ envelope_ok r) /\
  (forall (status : Z) (msg : string) (hdrs : list (string * string)),
      exists resp props,
        fst (TodoProcessor.createErrorResponse E status msg hdrs w) = Normal resp /\
        responseBody resp = JSON_stringify E (JObj props) /\
        assoc "success" props = Some (JBool false) /\
        assoc "error" props = Some (JStr msg) /\
        assoc "data" props = None).
Proof.
  repeat split.
  - destruct (handleGetTodos_ok event w) as [r [H1 H2]].
    exists r. auto with envelope.
  - destruct (handleCreateTodo_total E event w) as [r [H1 H2]].
    exists r. split; [exact H1 | apply total_envelope_ok, H2].
  - destruct (handleUpdateTodo_total E event w) as [r [H1 H2]].
    exists r. split; [exact H1 | apply total_envelope_ok, H2].
  - destruct (handleDeleteTodo_total event w) as [r [H1 H2]].
    exists r. split; [exact H1 | apply total_envelope_ok, H2].
  - intros status msg hdrs. crunch.
    do 2 eexists. repeat split.
Qed.

(** *** Create: validation failures *)

Lemma content_check_fails (E : Engine) (v : json) :
  v <> JNull ->
  falsy_str (content_string v) = true ->
  negb (truthy E (field v "content")) || negb (TodoProcessor.is_string (field v "content"))
  = true.
Proof.
  intros _ H. destruct v; simpl in *; try reflexivity.
  destruct (assoc "content" props) as [[| | | s | |]|]; simpl in *; try reflexivity.
  - apply orb_true_r.
  - apply orb_true_r.
  - rewrite H. reflexivity.
Qed.

Lemma rejected_create_fails (E : Engine) (event : APIGatewayProxyEvent) :
  rejected_create E event ->
  exists msg, forall w,
    TodoProcessor.handleCreateTodo E event w = (Normal (Normal (TodoProcessor.failure msg)), w).
Proof.
  intros [Hb | (text & v & Hb & Hp & Hc)].
  - exists "リクエストボディが必要です". intros w. run_operation.
    destruct (falsy_str_cases _ Hb) as [-> | ->]; reflexivity.
  - destruct (nonempty text) eqn:Hn.
    + destruct v as [| b | n | s | items | props] eqn:Hv.
      1: { exists "Todoアイテムの作成に失敗しました". intros w. run_operation.
           rewrite Hb, Hn, Hp. reflexivity. }
      all: exists "contentフィールドは必須で、文字列である必要があります"; intros w;
        run_operation; rewrite Hb, Hn, Hp; simpl; try reflexivity.
      change (assoc "content" props) with (field (JObj props) "content").
      rewrite content_check_fails by (exact Hc || discriminate). reflexivity.
    + exists "リクエストボディが必要です". intros w. run_operation.
      rewrite Hb, Hn. reflexivity.
Qed.

(** C5: a create request whose body is absent, or whose parsed body has a
    missing, empty or non-string [content], makes the create operation
    return [success = false] with an error message, and the handler
    answers 400 with that envelope as its body. *)
Theorem create_without_content_400 (E : Engine) (w : World)
    (event : APIGatewayProxyEvent) :
  httpMethod event = "POST" ->
  rejected_create E event ->
  exists msg,
    settled (TodoProcessor.handleCreateTodo E event) w
      = Normal {| TodoProcessor.success := false;
                  TodoProcessor.data := None;
                  TodoProcessor.message := None;
                  TodoProcessor.error := Some msg |} /\
    settled (TodoProcessor.handler E event) w
      = Normal {| statusCode := 400;
                  headers := TodoProcessor.corsHeaders;
                  responseBody :=
                    JSON_stringify E (TodoProcessor.TodoResponse_json
                                        (TodoProcessor.failure msg)) |}.
Proof.
  intros Hm Hr. destruct (rejected_create_fails E event Hr) as [msg Hmsg].
  exists msg. split.
  - unfold settled. rewrite Hmsg. reflexivity.
  - unfold settled, TodoProcessor.handler. rewrite Hm. simpl.
    unfold async, bind at 1. simpl. unfold try_catch, bind at 1.
    rewrite Hmsg. crunch.
Qed.

Lemma create_without_content_400_witness :
  let event := request "POST" None None (Some (dq "{'content':'','isDone':true}")) in
  exists msg,
    settled (TodoProcessor.handleCreateTodo Reference.engine event) frozen_world
      = Normal {| TodoProcessor.success := false;
                  TodoProcessor.data := None;
                  TodoProcessor.message := None;
                  TodoProcessor.error := Some msg |} /\
    settled (TodoProcessor.handler Reference.engine event) frozen_world
      = Normal {| statusCode := 400;
                  headers := TodoProcessor.corsHeaders;
                  responseBody :=
                    JSON_stringify Reference.engine
                      (TodoProcessor.TodoResponse_json (TodoProcessor.failure msg)) |}.
Proof.
  intros event.
  apply (create_without_content_400 Reference.engine frozen_world event).
  - reflexivity.
  - right. exists (dq "{'content':'','isDone':true}"), (JObj [("content", JStr EmptyString); ("isDone", JBool true)]).
    repeat split; reflexivity.
Defined.

(** *** Update and delete: missing identifier *)

(** C7: without a path identifier (absent, or empty) the update and the
    delete operation each return [success = false]. *)
Theorem update_delete_without_id_fail (E : Engine) (w : World)
    (event : APIGatewayProxyEvent) :
  falsy_str (opt_get (pathParameters event) "id") = true ->
  (exists r, settled (TodoProcessor.handleUpdateTodo E event) w = Normal r /\
             TodoProcessor.success r = false /\
             TodoProcessor.error r = Some "TodoアイテムのIDが必要です") /\
  (exists r, settled (TodoProcessor.handleDeleteTodo event) w = Normal r /\
             TodoProcessor.success r = false /\
             TodoProcessor.error r = Some "TodoアイテムのIDが必要です").
Proof.
  intros H. run_operation.
  destruct (falsy_str_cases _ H) as [-> | ->]; simpl;
    split; eexists; repeat split.
Qed.

Lemma update_delete_without_id_fail_witness :
  let event := request "PUT" None (Some ∅) (Some (dq "{'content':'x'}")) in
  (exists r, settled (TodoProcessor.handleUpdateTodo Reference.engine event) frozen_world
             = Normal r /\
             TodoProcessor.success r = false /\
             TodoProcessor.error r = Some "TodoアイテムのIDが必要です") /\
  (exists r, settled (TodoProcessor.handleDeleteTodo event) frozen_world = Normal r /\
             TodoProcessor.success r = false /\
             TodoProcessor.error r = Some "TodoアイテムのIDが必要です").
Proof.
  intros event.
  apply (update_delete_without_id_fail Reference.engine frozen_world event).
  reflexivity.
Defined.

(** *** Generated identifiers *)

Lemma digits_string_of_uint (d : Decimal.uint) :
  digits (NilEmpty.string_of_uint d) = true.
Proof. induction d; simpl; auto. Qed.

(** [dec z] is an optional minus sign followed by at least one digit. *)
Lemma dec_shape (z : Z) :
  exists ds, digits ds = true /\ ds <> EmptyString /\
             (dec z = ds \/ dec z = String "-" ds).
Proof.
  unfold dec.
  assert (Hu : forall d, digits (NilZero.string_of_uint d) = true /\
                         NilZero.string_of_uint d <> EmptyString).
  { intros d. destruct d; simpl; split; try reflexivity; try discriminate;
      apply digits_string_of_uint. }
  destruct (Z.to_int z) as [d | d]; simpl;
    exists (NilZero.string_of_uint d); destruct (Hu d); auto.
Qed.

Lemma to_int_not_nil (z : Z) : Z.to_int z <> Decimal.Pos Decimal.Nil /\
                               Z.to_int z <> Decimal.Neg Decimal.Nil.
Proof.
  split; intros H; pose proof (DecimalZ.of_to z) as Hz; rewrite H in Hz;
    simpl in Hz; subst z; discriminate H.
Qed.

Lemma dec_inj (a b : Z) : dec a = dec b -> a = b.
Proof.
  unfold dec. intros H.
  destruct (to_int_not_nil a) as [Ha1 Ha2], (to_int_not_nil b) as [Hb1 Hb2].
  apply DecimalZ.to_int_inj.
  pose proof (NilZero.isi _ Ha1 Ha2) as Ia.
  pose proof (NilZero.isi _ Hb1 Hb2) as Ib.
  rewrite H in Ia. congruence.
Qed.

(** A run of digits followed by a minus sign can be split in one way
    only. *)
Lemma digits_then_dash (d1 d2 x y : string) :
  digits d1 = true -> digits d2 = true ->
  d1 ++ String "-" x = d2 ++ String "-" y ->
  d1 = d2 /\ x = y.
Proof.
  revert d2. induction d1 as [| c d1 IH]; intros [| c' d2] H1 H2 Heq; simpl in *.
  - injection Heq as ->. auto.
  - injection Heq as <- _. discriminate H2.
  - injection Heq as -> _. discriminate H1.
  - injection Heq as -> Heq.
    apply andb_prop in H1 as [_ H1]. apply andb_prop in H2 as [_ H2].
    destruct (IH d2 H1 H2 Heq) as [-> ->]. auto.
Qed.

Lemma dec_then_dash (a b : Z) (x y : string) :
  dec a ++ String "-" x = dec b ++ String "-" y -> a = b /\ x = y.
Proof.
  destruct (dec_shape a) as (da & Ha & Hna & Hda), (dec_shape b) as (db & Hb & Hnb & Hdb).
  intros Heq.
  assert (Hgoal : dec a = dec b /\ x = y).
  { destruct Hda as [Hda | Hda], Hdb as [Hdb | Hdb]; rewrite Hda, Hdb in *.
    - apply digits_then_dash; assumption.
    - destruct da as [| c da]; [congruence |]. simpl in Heq, Ha.
      injection Heq as -> _. discriminate Ha.
    - destruct db as [| c db]; [congruence |]. simpl in Heq, Hb.
      injection Heq as <- _. discriminate Hb.
    - simpl in Heq. injection Heq as Heq.
      destruct (digits_then_dash _ _ _ _ Ha Hb Heq) as [-> ->]. auto. }
  destruct Hgoal as [Hd ->]. split; [apply dec_inj, Hd | reflexivity].
Qed.

(** What [generateUniqueId] computes in a world: the next clock reading and
    the next random draw decide the identifier, and nothing else does. *)
Lemma generateUniqueId_value (w : World) :
  fst (TodoProcessor.generateUniqueId w) =
    Normal ("todo-" ++ dec (clock w (clock_reads w)) ++ "-"
                    ++ substr 2 9 (random w (random_draws w))).
Proof. reflexivity. Qed.

Lemma generateUniqueId_inj (w1 w2 : World) (i1 i2 : string) :
  fst (TodoProcessor.generateUniqueId w1) = Normal i1 ->
  fst (TodoProcessor.generateUniqueId w2) = Normal i2 ->
  (i1 = i2 <->
   clock w1 (clock_reads w1) = clock w2 (clock_reads w2) /\
   substr 2 9 (random w1 (random_draws w1)) = substr 2 9 (random w2 (random_draws w2))).
Proof.
  rewrite !generateUniqueId_value. intros [= <-] [= <-]. split.
  - intros H. simpl in H. injection H as H. apply dec_then_dash in H. exact H.
  - intros [-> ->]. reflexivity.
Qed.

(** *** Create: success *)

Lemma content_string_field (v : json) (s : string) :
  content_string v = Some s ->
  v <> JNull /\ field v "content" = Some (JStr s).
Proof.
  destruct v; simpl; try discriminate.
  destruct (assoc "content" props) as [[| | | s' | |]|]; try discriminate.
  intros [= ->]. split; [discriminate | reflexivity].
Qed.

Lemma accepted_create_succeeds (E : Engine) (w : World) (event : APIGatewayProxyEvent)
    (s : string) :
  accepted_create E event s ->
  exists item i,
    settled (TodoProcessor.handleCreateTodo E event) w = Normal (created item) /\
    TodoProcessor.content item = Some (JStr s) /\
    TodoProcessor.id item = Some i /\
    fst (TodoProcessor.generateUniqueId w) = Normal i /\
    nonempty i = true.
Proof.
  intros (text & v & Hb & Hn & Hp & Hc & Hs).
  destruct (content_string_field v s Hc) as [Hv Hf].
  run_operation. rewrite Hb, Hn, Hp. simpl.
  rewrite (Get_field v "content" Hv), Hf. simpl. rewrite Hs. simpl.
  rewrite (Get_field v "isDone" Hv). simpl.
  do 2 eexists. split; [reflexivity |]. simpl. repeat split.
Qed.

(** C6, as the code has it: a create request with a non-empty string
    [content] succeeds with an item that carries this content and a
    non-empty identifier; the identifiers of two such calls differ exactly
    when the calls read different clock values or draw different random
    suffixes. *)
Theorem create_item_and_identifier (E : Engine) (w1 w2 : World)
    (event1 event2 : APIGatewayProxyEvent) (s1 s2 : string) :
  accepted_create E event1 s1 ->
  accepted_create E event2 s2 ->
  exists item1 item2 i1 i2,
    settled (TodoProcessor.handleCreateTodo E event1) w1 = Normal (created item1) /\
    settled (TodoProcessor.handleCreateTodo E event2) w2 = Normal (created item2) /\
    TodoProcessor.content item1 = Some (JStr s1) /\
    TodoProcessor.content item2 = Some (JStr s2) /\
    TodoProcessor.id item1 = Some i1 /\ nonempty i1 = true /\
    TodoProcessor.id item2 = Some i2 /\ nonempty i2 = true /\
    (i1 <> i2 <->
     clock w1 (clock_reads w1) <> clock w2 (clock_reads w2) \/
     substr 2 9 (random w1 (random_draws w1)) <> substr 2 9 (random w2 (random_draws w2))).
Proof.
  intros H1 H2.
  destruct (accepted_create_succeeds E w1 event1 s1 H1) as (item1 & i1 & R1 & C1 & I1 & G1 & N1).
  destruct (accepted_create_succeeds E w2 event2 s2 H2) as (item2 & i2 & R2 & C2 & I2 & G2 & N2).
  exists item1, item2, i1, i2. repeat (split; [assumption |]).
  pose proof (generateUniqueId_inj w1 w2 i1 i2 G1 G2) as Hinj.
  split.
  - intros Hne.
    destruct (Z.eq_dec (clock w1 (clock_reads w1)) (clock w2 (clock_reads w2))) as [Ht | Ht];
      [| left; exact Ht].
    destruct (String.string_dec (substr 2 9 (random w1 (random_draws w1)))
                                (substr 2 9 (random w2 (random_draws w2)))) as [Hr | Hr];
      [| right; exact Hr].
    exfalso. apply Hne, Hinj. split; assumption.
  - intros Hd Heq. apply Hinj in Heq as [Ht Hr]. destruct Hd as [Hd | Hd]; contradiction.
Qed.

Lemma create_item_and_identifier_witness :
  let event := create_request (dq "{'content':'buy milk'}") in
  exists item1 item2 i1 i2,
    settled (TodoProcessor.handleCreateTodo Reference.engine event) frozen_world
      = Normal (created item1) /\
    settled (TodoProcessor.handleCreateTodo Reference.engine event) later_world
      = Normal (created item2) /\
    TodoProcessor.content item1 = Some (JStr "buy milk") /\
    TodoProcessor.content item2 = Some (JStr "buy milk") /\
    TodoProcessor.id item1 = Some i1 /\ nonempty i1 = true /\
    TodoProcessor.id item2 = Some i2 /\ nonempty i2 = true /\
    (i1 <> i2 <->
     clock frozen_world 0%nat <> clock later_world 0%nat \/
     substr 2 9 (random frozen_world 0%nat) <> substr 2 9 (random later_world 0%nat)).
Proof.
  intros event.
  assert (H : accepted_create Reference.engine event "buy milk").
  { exists (dq "{'content':'buy milk'}"), (JObj [("content", JStr "buy milk")]).
    repeat split; reflexivity. }
  exact (create_item_and_identifier Reference.engine frozen_world later_world
           event event "buy milk" "buy milk" H H).
Defined.

(** C6 as stated fails: two create calls made one after the other in a
    process whose clock has not advanced and whose random generator
    repeats itself return the same identifier. *)
Lemma repeated_create_same_identifier :
  let event := create_request (dq "{'content':'buy milk'}") in
  let first := TodoProcessor.handleCreateTodo Reference.engine event frozen_world in
  let second := TodoProcessor.handleCreateTodo Reference.engine event (snd first) in
  exists item1 item2,
    fst first = Normal (Normal (created item1)) /\
    fst second = Normal (Normal (created item2)) /\
    TodoProcessor.id item1 = Some "todo-1704067200000-4fzyo82mv" /\
    TodoProcessor.id item2 = Some "todo-1704067200000-4fzyo82mv".
Proof.
  do 2 eexists. repeat split.
Qed.

(** *** Update *)

(** C9, as the code has it: with a non-empty path identifier and a
    non-empty body that parses to a value other than [null], the update
    succeeds; the item has the path identifier, the body's [content] when
    that is truthy and the default content otherwise, the body's [isDone]
    when that is truthy and [false] otherwise, the fixed creation
    timestamp, and the clock reading of the call as update timestamp. *)
Theorem update_echoes_truthy_fields (E : Engine) (w : World)
    (event : APIGatewayProxyEvent) (i text : string) (v : json) :
  opt_get (pathParameters event) "id" = Some i ->
  nonempty i = true ->
  body event = Some text ->
  nonempty text = true ->
  JSON_parse E text = Some v ->
  v <> JNull ->
  settled (TodoProcessor.handleUpdateTodo E event) w =
    Normal (updated
      {| TodoProcessor.id := Some i;
         TodoProcessor.content :=
           Some (or_else E (field v "content") (JStr "デフォルトコンテンツ"));
         TodoProcessor.isDone :=
           Some (or_else E (field v "isDone") (JBool false));
         TodoProcessor.createdAt := Some "2024-01-01T00:00:00.000Z";
         TodoProcessor.updatedAt := Some (toISOString (clock w (clock_reads w))) |}).
Proof.
  intros Hi Hni Hb Hnt Hp Hv. run_operation.
  rewrite Hi, Hni, Hb, Hnt, Hp. simpl.
  rewrite (Get_field v "content" Hv), (Get_field v "isDone" Hv). reflexivity.
Qed.

Lemma update_echoes_truthy_fields_witness :
  settled (TodoProcessor.handleUpdateTodo Reference.engine
             (update_request "42" (dq "{'content':'water plants','isDone':true}")))
          frozen_world =
    Normal (updated
      {| TodoProcessor.id := Some "42";
         TodoProcessor.content := Some (JStr "water plants");
         TodoProcessor.isDone := Some (JBool true);
         TodoProcessor.createdAt := Some "2024-01-01T00:00:00.000Z";
         TodoProcessor.updatedAt := Some "2024-01-01T00:00:00.000Z" |}).
Proof.
  apply (update_echoes_truthy_fields Reference.engine frozen_world
           (update_request "42" (dq "{'content':'water plants','isDone':true}"))
           "42" (dq "{'content':'water plants','isDone':true}")
           (JObj [("content", JStr "water plants"); ("isDone", JBool true)]));
    try reflexivity.
  discriminate.
Defined.

(** C9 as stated fails on two counts.  The body [null] parses as JSON, but
    reading its [content] throws and the [catch] clause answers with a
    failure envelope.  And a supplied field that is falsy is replaced, not
    echoed: an empty [content] becomes the default content and a [null]
    completion flag becomes [false]. *)
Lemma update_not_always_echo :
  settled (TodoProcessor.handleUpdateTodo Reference.engine (update_request "42" "null"))
          frozen_world
    = Normal (TodoProcessor.failure "Todoアイテムの更新に失敗しました")
  /\
  settled (TodoProcessor.handleUpdateTodo Reference.engine
             (update_request "42" (dq "{'content':'','isDone':null}")))
          frozen_world
    = Normal (updated
        {| TodoProcessor.id := Some "42";
           TodoProcessor.content := Some (JStr "デフォルトコンテンツ");
           TodoProcessor.isDone := Some (JBool false);
           TodoProcessor.createdAt := Some "2024-01-01T00:00:00.000Z";
           TodoProcessor.updatedAt := Some "2024-01-01T00:00:00.000Z" |}).
Proof. split; reflexivity. Qed.

(** ** The greeting handler on GET *)

#[local] Arguments String.append !s1 s2 : simpl nomatch.

Lemma append_assoc (a b c : string) : (a ++ b) ++ c = a ++ b ++ c.
Proof. induction a as [| x a IH]; simpl; [reflexivity | rewrite IH; reflexivity]. Qed.

Lemma is_prefix_append (s t : string) : is_prefix s (s ++ t) = true.
Proof.
  induction s as [| c s IH]; simpl; [reflexivity |].
  rewrite Ascii.eqb_refl. exact IH.
Qed.

Lemma contains_prefix (s t : string) : is_prefix s t = true -> contains s t = true.
Proof. intros H. destruct t; simpl; rewrite H; reflexivity. Qed.

Lemma contains_complete (s t : string) : occurs_in s t -> contains s t = true.
Proof.
  intros (pre & post & ->). induction pre as [| c pre IH].
  - apply contains_prefix. exact (is_prefix_append s post).
  - change (contains s (String c (pre ++ s ++ post)) = true). simpl.
    rewrite IH. apply orb_true_r.
Qed.

Lemma escape_char_plain (c : ascii) : plain_char c = true -> escape_char c = str1 c.
Proof.
  unfold plain_char, escape_char. cbv zeta.
  destruct (N_of_ascii c =? 34)%N; [discriminate |].
  destruct (N_of_ascii c =? 92)%N; [discriminate |].
  destruct (N_of_ascii c <? 32)%N eqn:Hlt; [discriminate |]. intros _.
  apply N.ltb_ge in Hlt.
  repeat match goal with
         | |- context [(N_of_ascii c =? ?k)%N] =>
             destruct (N.eqb_spec (N_of_ascii c) k); [lia |]
         end.
  reflexivity.
Qed.

Lemma escape_plain (s : string) : plain s = true -> escape s = s.
Proof.
  induction s as [| c s IH]; simpl; [reflexivity |].
  intros H. apply andb_prop in H as [Hc Hs].
  rewrite (escape_char_plain c Hc), (IH Hs). reflexivity.
Qed.

Lemma escape_append (a b : string) : escape (a ++ b) = escape a ++ escape b.
Proof.
  induction a as [| c a IH]; simpl; [reflexivity |].
  rewrite IH, append_assoc. reflexivity.
Qed.

(** The serialised greeting, character by character up to the name. *)
Lemma stringify_getObject (E : Engine) (userName timestamp fn : string) :
  JSON_stringify E (HelloWorld.getObject userName timestamp fn) =
    String "{" (QuoteJSONString "message" ++ ":" ++ String DQUOTE "Hello ")
    ++ escape userName
    ++ "!" ++ str1 DQUOTE ++ ","
    ++ QuoteJSONString "timestamp" ++ ":" ++ QuoteJSONString timestamp ++ ","
    ++ QuoteJSONString "method" ++ ":" ++ QuoteJSONString "GET" ++ ","
    ++ QuoteJSONString "functionName" ++ ":" ++ QuoteJSONString fn ++ "}".
Proof.
  unfold JSON_stringify, HelloWorld.getObject. cbn [List.map fst snd join].
  unfold QuoteJSONString at 2.
  change ("Hello " ++ userName ++ "!") with (("Hello " ++ userName) ++ "!").
  rewrite !escape_append. change (escape "Hello ") with "Hello ".
  change (escape "!") with "!".
  cbn [String.append]. repeat (rewrite ?append_assoc; cbn [String.append]).
  reflexivity.
Qed.

(** C3, as the code has it: a GET request is answered with status 200 and
    the JSON serialisation of an object whose [message] is "Hello ", the
    name and "!", the name being the [name] query parameter, or "World" when
    that is absent or empty.  The body contains the name verbatim when the
    name has no double quote, backslash or control character, which
    [JSON.stringify] would escape. *)
Theorem get_greets_name (E : Engine) (w : World) (event : APIGatewayProxyEvent) :
  httpMethod event = "GET" ->
  exists r timestamp fn,
    settled (HelloWorld.handler E event) w = Normal r /\
    statusCode r = 200 /\
    responseBody r =
      JSON_stringify E
        (JObj [ ("message", JStr ("Hello " ++ greeted_name event ++ "!"));
                ("timestamp", JStr timestamp);
                ("method", JStr "GET");
                ("functionName", JStr fn) ]) /\
    (plain (greeted_name event) = true ->
     occurs_in (greeted_name event) (responseBody r)).
Proof.
  intros Hm. unfold settled, HelloWorld.handler. rewrite Hm. crunch.
  do 3 eexists. split; [reflexivity |]. split; [reflexivity |].
  split; [reflexivity |].
  intros Hplain. cbn [responseBody].
  fold (greeted_name event).
  change (JObj _) with
    (HelloWorld.getObject (greeted_name event)
       (toISOString (clock w (S (clock_reads w))))
       (str_or (FUNCTION_NAME w) "hello-world")).
  rewrite stringify_getObject, (escape_plain _ Hplain).
  eexists _, _. reflexivity.
Qed.

Lemma get_greets_name_witness :
  exists r,
    settled (HelloWorld.handler Reference.engine (get_request "Aiko")) frozen_world
      = Normal r /\
    statusCode r = 200 /\
    occurs_in "Aiko" (responseBody r).
Proof.
  destruct (get_greets_name Reference.engine frozen_world (get_request "Aiko") eq_refl)
    as (r & timestamp & fn & H1 & H2 & _ & H4).
  exists r. split; [exact H1 |]. split; [exact H2 |].
  apply H4. reflexivity.
Defined.

Example get_default_name :
  settled (HelloWorld.handler Reference.engine (request "GET" None None None)) frozen_world
  = Normal {| statusCode := 200;
              headers := HelloWorld.responseHeaders;
              responseBody :=
                dq "{'message':'Hello World!','timestamp':'2024-01-01T00:00:00.000Z','method':'GET','functionName':'hello-world'}" |}.
Proof. reflexivity. Qed.

(** C3 as stated fails: the body is JSON text, so a name with a double
    quote reaches it escaped.  The name [a"b] is greeted with status 200,
    but the body holds [a\"b] and nowhere the name itself. *)
Lemma get_quoted_name_not_verbatim :
  let name := dq "a'b" in
  exists r,
    settled (HelloWorld.handler Reference.engine (get_request name)) frozen_world
      = Normal r /\
    statusCode r = 200 /\
    greeted_name (get_request name) = name /\
    responseBody r =
      String "{" (dq "'message':'Hello a" ++ String BACKSLASH (dq "'b!','timestamp':'2024-01-01T00:00:00.000Z','method':'GET','functionName':'hello-world'}")) /\
    ~ occurs_in name (responseBody r).
Proof.
  intros name. eexists. split; [reflexivity |].
  split; [reflexivity |]. split; [reflexivity |]. split; [reflexivity |].
  intros H. apply contains_complete in H. vm_compute in H. discriminate H.
Qed.


(** * Further properties of the handlers *)

(** ** Running an [async] function *)

Lemma settled_async {A} (body : M A) (w : World) : settled (async body) w = fst (body w).
Proof. unfold settled, async. destruct (body w). reflexivity. Qed.

Lemma async_run {A} (body : M A) (w : World) :
  async body w = (Normal (fst (body w)), snd (body w)).
Proof. unfold async. destruct (body w). reflexivity. Qed.

(** ** The todo handler as a whole *)

(** Each of the four operations is an [async] function: a call hands back
    a promise and leaves a world. *)
Lemma operation_run (E : Engine) (event : APIGatewayProxyEvent)
    (op : M (Promise TodoProcessor.TodoResponse)) (w : World) :
  operation E event = Some op ->
  op w = (Normal (settled op w), snd (op w)).
Proof.
  unfold operation. intros H.
  repeat match type of H with
         | (if ?b then _ else _) = _ => destruct b
         end; try discriminate; injection H as <-;
    unfold TodoProcessor.handleGetTodos, TodoProcessor.handleCreateTodo,
      TodoProcessor.handleUpdateTodo, TodoProcessor.handleDeleteTodo;
    rewrite settled_async, async_run; reflexivity.
Qed.

Lemma operation_total (E : Engine) (event : APIGatewayProxyEvent)
    (op : M (Promise TodoProcessor.TodoResponse)) (w : World) :
  operation E event = Some op ->
  exists r, settled op w = Normal r /\
            ((exists msg, r = TodoProcessor.failure msg) \/ TodoProcessor.success r = true).
Proof.
  unfold operation. intros H.
  repeat match type of H with
         | (if ?b then _ else _) = _ => destruct b
         end; try discriminate; injection H as <-.
  - destruct (handleGetTodos_ok event w) as (r & H1 & H2). eauto.
  - apply handleCreateTodo_total.
  - apply handleUpdateTodo_total.
  - apply handleDeleteTodo_total.
Qed.

Lemma operation_not_options (E : Engine) (event : APIGatewayProxyEvent)
    (op : M (Promise TodoProcessor.TodoResponse)) :
  operation E event = Some op -> String.eqb (httpMethod event) "OPTIONS" = false.
Proof.
  unfold operation. intros H. apply String.eqb_neq. intros Heq. rewrite Heq in H.
  discriminate H.
Qed.

(** The handler awaits the selected operation in the world left by its
    opening clock reading and serialises the envelope inside its [try]
    block: the answer is the wrapped envelope, or what the [catch] clause
    makes of the [RangeError]. *)
Lemma handler_after_operation (E : Engine) (w : World)
    (event : APIGatewayProxyEvent) (op : M (Promise TodoProcessor.TodoResponse))
    (result : TodoProcessor.TodoResponse) :
  operation E event = Some op ->
  settled op (logged w) = Normal result ->
  settled (TodoProcessor.handler E event) w =
    Normal (if Nat.leb (depth (TodoProcessor.TodoResponse_json result)) (stringify_depth E)
            then envelope_response E result
            else internal_error_response E (snd (op (logged w)))).
Proof.
  intros Hop Hres.
  pose proof (operation_run E event op (logged w) Hop) as Hrun.
  pose proof (operation_not_options E event op Hop) as Hno.
  unfold settled at 1. unfold TodoProcessor.handler. rewrite Hno.
  unfold operation in Hop.
  rewrite async_run. cbn [fst].
  unfold bind at 1. cbn [new_Date_toISOString bind Date_now ret].
  unfold logged in Hrun, Hres |- *. cbn [Date_now snd] in Hrun, Hres |- *.
  unfold try_catch.
  repeat match type of Hop with
         | (if ?b then _ else _) = _ => destruct b
         end; try discriminate; injection Hop as <-;
    unfold bind at 1; rewrite Hrun, Hres;
    unfold await, lift, bind, TodoProcessor.respond, stringify;
    (destruct (Nat.leb (depth (TodoProcessor.TodoResponse_json result))
                       (stringify_depth E));
     [ reflexivity
     | unfold TodoProcessor.createErrorResponse, internal_error_response;
       crunch ]).
Qed.

Lemma handler_of_operation (E : Engine) (w : World)
    (event : APIGatewayProxyEvent) (op : M (Promise TodoProcessor.TodoResponse))
    (result : TodoProcessor.TodoResponse) :
  operation E event = Some op ->
  settled op (logged w) = Normal result ->
  (depth (TodoProcessor.TodoResponse_json result) <= stringify_depth E)%nat ->
  settled (TodoProcessor.handler E event) w = Normal (envelope_response E result).
Proof.
  intros Hop Hres Hd. rewrite (handler_after_operation E w event op result Hop Hres).
  apply Nat.leb_le in Hd. rewrite Hd. reflexivity.
Qed.

(** The same for an envelope without nested user data. *)
Lemma handler_of_shallow (E : Engine) (w : World)
    (event : APIGatewayProxyEvent) (op : M (Promise TodoProcessor.TodoResponse))
    (result : TodoProcessor.TodoResponse) :
  operation E event = Some op ->
  settled op (logged w) = Normal result ->
  (depth (TodoProcessor.TodoResponse_json result) <= 3)%nat ->
  settled (TodoProcessor.handler E event) w = Normal (envelope_response E result).
Proof.
  intros Hop Hres Hd. apply (handler_of_operation E w event op result Hop Hres).
  pose proof (stringify_depth_min E). lia.
Qed.

(** X2: For GET, POST, PUT and DELETE the todo handler runs the selected
    operation after its opening clock reading and serialises the envelope,
    which keeps its invariant.  When the envelope is nested no deeper than
    [JSON.stringify] gets through (and holds well-formed text), the answer
    is the serialised envelope, with status 200 when it says success and
    400 otherwise.  When it is nested deeper, which takes a deeply nested
    [content] or [isDone] in the request, the [RangeError] lands in the
    outer [catch] clause and the answer is the 500 response with its two
    headers. *)
Theorem todo_handler_serves_envelope (E : Engine) (w : World)
    (event : APIGatewayProxyEvent) (op : M (Promise TodoProcessor.TodoResponse)) :
  operation E event = Some op ->
  exists result,
    settled op (logged w) = Normal result /\
    envelope_ok result /\
    ((depth (TodoProcessor.TodoResponse_json result) <= stringify_depth E)%nat ->
     well_formed (TodoProcessor.TodoResponse_json result) = true ->
     settled (TodoProcessor.handler E event) w = Normal (envelope_response E result)) /\
    ((stringify_depth E < depth (TodoProcessor.TodoResponse_json result))%nat ->
     settled (TodoProcessor.handler E event) w
     = Normal (internal_error_response E (snd (op (logged w))))).
Proof.
  intros Hop.
  destruct (operation_total E event op (logged w) Hop) as (result & Hres & Hshape).
  exists result. split; [exact Hres |]. split; [apply total_envelope_ok, Hshape |].
  rewrite (handler_after_operation E w event op result Hop Hres). split.
  - intros Hd _. apply Nat.leb_le in Hd. rewrite Hd. reflexivity.
  - intros Hd. apply Nat.leb_gt in Hd. rewrite Hd. reflexivity.
Qed.

Lemma todo_handler_serves_envelope_witness :
  settled (TodoProcessor.handler Reference.engine
             (request "DELETE" None (Some {[ "id" := "7" ]}) None)) frozen_world
  = Normal {| statusCode := 200;
              headers := TodoProcessor.corsHeaders;
              responseBody :=
                dq "{'success':true,'message':'Todoアイテム（ID: 7）の削除に成功しました'}" |}
  /\
  settled (TodoProcessor.handler Reference.engine
             (update_request "42"
                (dq "{'content':" ++ nested_arrays_text 1000 ++ "}"))) frozen_world
  = Normal {| statusCode := 500;
              headers := [ ("Content-Type", "application/json");
                           ("Access-Control-Allow-Origin", "*") ];
              responseBody :=
                dq "{'success':false,'error':'サーバー内部エラーが発生しました','timestamp':'2024-01-01T00:00:00.000Z','statusCode':500}" |}.
Proof.
  split.
  - destruct (todo_handler_serves_envelope Reference.engine frozen_world
                (request "DELETE" None (Some {[ "id" := "7" ]}) None)
                (TodoProcessor.handleDeleteTodo
                   (request "DELETE" None (Some {[ "id" := "7" ]}) None)) eq_refl)
      as (result & Hres & _ & Hfits & _).
    vm_compute in Hres. injection Hres as <-.
    rewrite Hfits; [reflexivity | vm_compute; lia | reflexivity].
  - destruct (todo_handler_serves_envelope Reference.engine frozen_world
                (update_request "42" (dq "{'content':" ++ nested_arrays_text 1000 ++ "}"))
                (TodoProcessor.handleUpdateTodo Reference.engine
                   (update_request "42"
                      (dq "{'content':" ++ nested_arrays_text 1000 ++ "}"))) eq_refl)
      as (result & Hres & _ & _ & Hdeep).
    rewrite Hdeep; [vm_compute; reflexivity |].
    vm_compute in Hres. injection Hres as <-. vm_compute. lia.
Defined.

(** X1: The todo handler answers every event: its promise is never
    rejected.  The answer has status 200, 400 or 405 and the full CORS
    headers, except when serialising the envelope of an operation exhausts
    the stack: then it is the 500 response of the outer [catch], which
    carries two headers only. *)
Theorem todo_handler_always_answers (E : Engine) (w : World)
    (event : APIGatewayProxyEvent) :
  exists r,
    settled (TodoProcessor.handler E event) w = Normal r /\
    ((dispatch_status (statusCode r) /\ headers r = TodoProcessor.corsHeaders)
     \/
     (statusCode r = 500 /\
      headers r = [ ("Content-Type", "application/json");
                    ("Access-Control-Allow-Origin", "*") ] /\
      exists op result,
        operation E event = Some op /\
        settled op (logged w) = Normal result /\
        (stringify_depth E < depth (TodoProcessor.TodoResponse_json result))%nat)).
Proof.
  destruct (operation E event) as [op |] eqn:Hop.
  - destruct (operation_total E event op (logged w) Hop) as (result & Hres & _).
    rewrite (handler_after_operation E w event op result Hop Hres).
    destruct (Nat.leb_spec (depth (TodoProcessor.TodoResponse_json result))
                           (stringify_depth E)) as [Hd | Hd].
    + eexists. split; [reflexivity |]. left. split; [| reflexivity].
      unfold dispatch_status. simpl. destruct (TodoProcessor.success result); auto.
    + eexists. split; [reflexivity |]. right. repeat split. eauto.
  - unfold operation in Hop. unfold settled, TodoProcessor.handler.
    destruct (String.eqb (httpMethod event) "OPTIONS").
    + eexists. split; [reflexivity |]. left. unfold dispatch_status. simpl. auto.
    + repeat match type of Hop with
             | (if ?b then _ else _) = _ => destruct b; try discriminate
             end.
      crunch. eexists. split; [reflexivity |]. left. unfold dispatch_status. simpl. auto.
Qed.

Ltac finish_shape :=
  eexists; split;
  [ reflexivity
  | first [ left; eexists; reflexivity | right; do 2 eexists; reflexivity ] ].

Lemma operation_shape (E : Engine) (event : APIGatewayProxyEvent)
    (op : M (Promise TodoProcessor.TodoResponse)) (w : World) :
  operation E event = Some op ->
  exists r, settled op w = Normal r /\
            ((exists msg, r = TodoProcessor.failure msg) \/
             (exists d m, r = {| TodoProcessor.success := true;
                                 TodoProcessor.data := d;
                                 TodoProcessor.message := Some m;
                                 TodoProcessor.error := None |})).
Proof.
  unfold operation. intros H.
  repeat match type of H with
         | (if ?b then _ else _) = _ => destruct b
         end; try discriminate; injection H as <-; run_operation.
  - finish_shape.
  - destruct (body event) as [s|]; [| finish_shape].
    destruct (nonempty s); [| finish_shape].
    destruct (JSON_parse E s) as [v|]; simpl; [| finish_shape].
    destruct (Get v "content") as [c|e]; simpl; [| finish_shape].
    destruct (negb (truthy E c) || negb (TodoProcessor.is_string c)); simpl;
      [finish_shape |].
    destruct (Get v "isDone") as [d|e]; simpl; finish_shape.
  - destruct (opt_get (pathParameters event) "id") as [i|]; [| finish_shape].
    destruct (nonempty i); [| finish_shape].
    destruct (body event) as [s|]; [| finish_shape].
    destruct (nonempty s); [| finish_shape].
    destruct (JSON_parse E s) as [v|]; simpl; [| finish_shape].
    destruct (Get v "content") as [c|e]; simpl; [| finish_shape].
    destruct (Get v "isDone") as [d|e]; simpl; finish_shape.
  - destruct (opt_get (pathParameters event) "id") as [i|]; [| finish_shape].
    destruct (nonempty i); finish_shape.
Qed.

(** X3: Which fields an envelope carries follows from its success flag: a
    success has a message and no error, a failure has an error and neither
    message nor data. *)
Theorem envelope_message_xor_error (E : Engine) (event : APIGatewayProxyEvent)
    (op : M (Promise TodoProcessor.TodoResponse)) (w : World) :
  operation E event = Some op ->
  exists r,
    settled op w = Normal r /\
    ((TodoProcessor.success r = true /\ TodoProcessor.error r = None /\
      exists m, TodoProcessor.message r = Some m)
     \/
     (TodoProcessor.success r = false /\ TodoProcessor.message r = None /\
      TodoProcessor.data r = None /\ exists msg, TodoProcessor.error r = Some msg)).
Proof.
  intros Hop. destruct (operation_shape E event op w Hop) as (r & Hr & Hs).
  exists r. split; [exact Hr |].
  destruct Hs as [(msg & ->) | (d & m & ->)].
  - right. simpl. repeat split. exists msg. reflexivity.
  - left. simpl. repeat split. exists m. reflexivity.
Qed.

Lemma envelope_message_xor_error_witness :
  let event := update_request "42" (dq "{'content':'water plants'}") in
  exists r,
    settled (TodoProcessor.handleUpdateTodo Reference.engine event) frozen_world = Normal r /\
    ((TodoProcessor.success r = true /\ TodoProcessor.error r = None /\
      exists m, TodoProcessor.message r = Some m)
     \/
     (TodoProcessor.success r = false /\ TodoProcessor.message r = None /\
      TodoProcessor.data r = None /\ exists msg, TodoProcessor.error r = Some msg)).
Proof.
  intros event.
  exact (envelope_message_xor_error Reference.engine event
           (TodoProcessor.handleUpdateTodo Reference.engine event) frozen_world eq_refl).
Defined.

(** ** Error messages of the operations *)

(** X4: The create operation tells three failures apart: a missing body, a
    body that cannot be used at all (not JSON, or [null]), and a body
    without a usable [content]. *)
Theorem create_error_messages (E : Engine) (event : APIGatewayProxyEvent) (w : World) :
  (falsy_str (body event) = true ->
   settled (TodoProcessor.handleCreateTodo E event) w
   = Normal (TodoProcessor.failure "リクエストボディが必要です"))
  /\
  (forall text,
      body event = Some text -> nonempty text = true ->
      JSON_parse E text = None \/ JSON_parse E text = Some JNull ->
      settled (TodoProcessor.handleCreateTodo E event) w
      = Normal (TodoProcessor.failure "Todoアイテムの作成に失敗しました"))
  /\
  (forall text v,
      body event = Some text -> nonempty text = true ->
      JSON_parse E text = Some v -> v <> JNull ->
      falsy_str (content_string v) = true ->
      settled (TodoProcessor.handleCreateTodo E event) w
      = Normal (TodoProcessor.failure "contentフィールドは必須で、文字列である必要があります")).
Proof.
  repeat split.
  - intros Hb. run_operation. destruct (falsy_str_cases _ Hb) as [-> | ->]; reflexivity.
  - intros text Hb Hn [Hp | Hp]; run_operation; rewrite Hb, Hn, Hp; reflexivity.
  - intros text v Hb Hn Hp Hv Hc. run_operation. rewrite Hb, Hn, Hp. simpl.
    rewrite (Get_field v "content" Hv). simpl.
    rewrite (content_check_fails E v Hv Hc). reflexivity.
Qed.

Lemma create_error_messages_witness :
  settled (TodoProcessor.handleCreateTodo Reference.engine (create_request EmptyString))
          frozen_world
  = Normal (TodoProcessor.failure "リクエストボディが必要です")
  /\
  settled (TodoProcessor.handleCreateTodo Reference.engine (create_request "{content}"))
          frozen_world
  = Normal (TodoProcessor.failure "Todoアイテムの作成に失敗しました")
  /\
  settled (TodoProcessor.handleCreateTodo Reference.engine
             (create_request (dq "{'content':42}")))
          frozen_world
  = Normal (TodoProcessor.failure "contentフィールドは必須で、文字列である必要があります").
Proof.
  split; [| split].
  - apply (create_error_messages Reference.engine (create_request EmptyString) frozen_world).
    reflexivity.
  - apply (create_error_messages Reference.engine (create_request "{content}") frozen_world)
      with (text := "{content}"); try reflexivity.
    left. reflexivity.
  - apply (create_error_messages Reference.engine (create_request (dq "{'content':42}"))
             frozen_world)
      with (text := dq "{'content':42}") (v := JObj [("content", JNum "42")]);
      try reflexivity.
    discriminate.
Defined.

(** X5: The update operation checks the identifier first and the body second,
    and reports a body that cannot be used (not JSON, or [null]) as a failed
    update. *)
Theorem update_error_messages (E : Engine) (event : APIGatewayProxyEvent) (w : World)
    (i : string) :
  opt_get (pathParameters event) "id" = Some i ->
  nonempty i = true ->
  (falsy_str (body event) = true ->
   settled (TodoProcessor.handleUpdateTodo E event) w
   = Normal (TodoProcessor.failure "リクエストボディが必要です"))
  /\
  (forall text,
      body event = Some text -> nonempty text = true ->
      JSON_parse E text = None \/ JSON_parse E text = Some JNull ->
      settled (TodoProcessor.handleUpdateTodo E event) w
      = Normal (TodoProcessor.failure "Todoアイテムの更新に失敗しました")).
Proof.
  intros Hi Hni. split.
  - intros Hb. run_operation. rewrite Hi, Hni.
    destruct (falsy_str_cases _ Hb) as [-> | ->]; reflexivity.
  - intros text Hb Hn [Hp | Hp]; run_operation; rewrite Hi, Hni, Hb, Hn, Hp; reflexivity.
Qed.

Lemma update_error_messages_witness :
  settled (TodoProcessor.handleUpdateTodo Reference.engine
             (request "PUT" None (Some {[ "id" := "42" ]}) None))
          frozen_world
  = Normal (TodoProcessor.failure "リクエストボディが必要です")
  /\
  settled (TodoProcessor.handleUpdateTodo Reference.engine (update_request "42" "[1,"))
          frozen_world
  = Normal (TodoProcessor.failure "Todoアイテムの更新に失敗しました").
Proof.
  split.
  - apply (update_error_messages Reference.engine
             (request "PUT" None (Some {[ "id" := "42" ]}) None) frozen_world "42");
      reflexivity.
  - apply (update_error_messages Reference.engine (update_request "42" "[1,")
             frozen_world "42") with (text := "[1,"); try reflexivity.
    left. reflexivity.
Defined.

(** ** Answers of the todo handler, verb by verb *)

(** Without a path identifier both operations fail in every world. *)
Lemma no_identifier_fails (E : Engine) (w : World)
    (event : APIGatewayProxyEvent) :
  falsy_str (opt_get (pathParameters event) "id") = true ->
  settled (TodoProcessor.handleUpdateTodo E event) w
    = Normal (TodoProcessor.failure "TodoアイテムのIDが必要です") /\
  settled (TodoProcessor.handleDeleteTodo event) w
    = Normal (TodoProcessor.failure "TodoアイテムのIDが必要です").
Proof.
  intros H. run_operation.
  destruct (falsy_str_cases _ H) as [-> | ->]; split; reflexivity.
Qed.

(** X6: A PUT or DELETE request without a path identifier (absent or empty) is
    answered with status 400 and the envelope that names the missing
    identifier; the body of the request plays no part. *)
Theorem missing_id_is_400 (E : Engine) (w : World) (event : APIGatewayProxyEvent) :
  httpMethod event = "PUT" \/ httpMethod event = "DELETE" ->
  falsy_str (opt_get (pathParameters event) "id") = true ->
  settled (TodoProcessor.handler E event) w =
    Normal {| statusCode := 400;
              headers := TodoProcessor.corsHeaders;
              responseBody :=
                JSON_stringify E
                  (JObj [ ("success", JBool false);
                          ("error", JStr "TodoアイテムのIDが必要です") ]) |}.
Proof.
  intros Hm Hid.
  destruct (no_identifier_fails E (logged w) event Hid) as [Hu Hd].
  destruct Hm as [Hm | Hm].
  - apply (handler_of_shallow E w event (TodoProcessor.handleUpdateTodo E event)
             (TodoProcessor.failure "TodoアイテムのIDが必要です"));
      [| exact Hu | lazy; lia].
    unfold operation. rewrite Hm. reflexivity.
  - apply (handler_of_shallow E w event (TodoProcessor.handleDeleteTodo event)
             (TodoProcessor.failure "TodoアイテムのIDが必要です"));
      [| exact Hd | lazy; lia].
    unfold operation. rewrite Hm. reflexivity.
Qed.

Lemma missing_id_is_400_witness :
  settled (TodoProcessor.handler Reference.engine
             (request "DELETE" None None (Some "ignored")))
          frozen_world =
    Normal {| statusCode := 400;
              headers := TodoProcessor.corsHeaders;
              responseBody := dq "{'success':false,'error':'TodoアイテムのIDが必要です'}" |}.
Proof.
  apply (missing_id_is_400 Reference.engine frozen_world
           (request "DELETE" None None (Some "ignored"))).
  - right. reflexivity.
  - reflexivity.
Defined.

(** X7: A DELETE request with a non-empty path identifier is answered with
    status 200; the envelope carries a message that names the identifier
    and neither data nor error.  Nothing is looked up: any identifier is
    reported as deleted. *)
Theorem delete_with_id_is_200 (E : Engine) (w : World) (event : APIGatewayProxyEvent)
    (i : string) :
  httpMethod event = "DELETE" ->
  opt_get (pathParameters event) "id" = Some i ->
  nonempty i = true ->
  settled (TodoProcessor.handleDeleteTodo event) w =
    Normal {| TodoProcessor.success := true;
              TodoProcessor.data := None;
              TodoProcessor.message :=
                Some ("Todoアイテム（ID: " ++ i ++ "）の削除に成功しました");
              TodoProcessor.error := None |}
  /\
  settled (TodoProcessor.handler E event) w =
    Normal {| statusCode := 200;
              headers := TodoProcessor.corsHeaders;
              responseBody :=
                JSON_stringify E
                  (JObj [ ("success", JBool true);
                          ("message",
                           JStr ("Todoアイテム（ID: " ++ i ++ "）の削除に成功しました")) ]) |}.
Proof.
  intros Hm Hi Hn.
  assert (Hop : forall w',
             settled (TodoProcessor.handleDeleteTodo event) w' =
               Normal {| TodoProcessor.success := true;
                         TodoProcessor.data := None;
                         TodoProcessor.message :=
                           Some ("Todoアイテム（ID: " ++ i ++ "）の削除に成功しました");
                         TodoProcessor.error := None |}).
  { intros w'. run_operation. rewrite Hi, Hn. reflexivity. }
  split; [apply Hop |].
  refine (handler_of_shallow E w event (TodoProcessor.handleDeleteTodo event) _ _
            (Hop (logged w)) _).
  - unfold operation. rewrite Hm. reflexivity.
  - lazy. lia.
Qed.

Lemma delete_with_id_is_200_witness :
  let event := request "DELETE" None (Some {[ "id" := "no-such-item" ]}) None in
  settled (TodoProcessor.handleDeleteTodo event) frozen_world =
    Normal {| TodoProcessor.success := true;
              TodoProcessor.data := None;
              TodoProcessor.message :=
                Some "Todoアイテム（ID: no-such-item）の削除に成功しました";
              TodoProcessor.error := None |}
  /\
  settled (TodoProcessor.handler Reference.engine event) frozen_world =
    Normal {| statusCode := 200;
              headers := TodoProcessor.corsHeaders;
              responseBody :=
                dq "{'success':true,'message':'Todoアイテム（ID: no-such-item）の削除に成功しました'}" |}.
Proof.
  intros event.
  exact (delete_with_id_is_200 Reference.engine frozen_world event "no-such-item"
           eq_refl eq_refl eq_refl).
Defined.

(** X8: A POST request with a usable [content] is answered with status 200
    (not 201), provided the body holds well-formed text and its [isDone],
    which is echoed when truthy whatever its type, is nested no deeper than
    [JSON.stringify] gets through inside the envelope.  The new item takes
    its identifier from the clock reading that follows the opening one and
    from the next random draw, and its two timestamps from two further,
    separate clock readings. *)
Theorem create_is_200 (E : Engine) (w : World) (event : APIGatewayProxyEvent)
    (text s : string) (v : json) :
  httpMethod event = "POST" ->
  body event = Some text -> nonempty text = true ->
  JSON_parse E text = Some v ->
  well_formed v = true ->
  content_string v = Some s -> nonempty s = true ->
  (depth (or_else E (field v "isDone") (JBool false)) + 2 <= stringify_depth E)%nat ->
  let n := clock_reads w in
  settled (TodoProcessor.handler E event) w =
    Normal {| statusCode := 200;
              headers := TodoProcessor.corsHeaders;
              responseBody :=
                JSON_stringify E (TodoProcessor.TodoResponse_json (created
                  {| TodoProcessor.id :=
                       Some ("todo-" ++ dec (clock w (S n)) ++ "-"
                                     ++ substr 2 9 (random w (random_draws w)));
                     TodoProcessor.content := Some (JStr s);
                     TodoProcessor.isDone :=
                       Some (or_else E (field v "isDone") (JBool false));
                     TodoProcessor.createdAt := Some (toISOString (clock w (S (S n))));
                     TodoProcessor.updatedAt :=
                       Some (toISOString (clock w (S (S (S n))))) |})) |}.
Proof.
  intros Hm Hb Hn Hp _ Hc Hs Hd n.
  destruct (content_string_field v s Hc) as [Hv Hf].
  refine (handler_of_operation E w event (TodoProcessor.handleCreateTodo E event)
            (created _) _ _ _).
  - unfold operation. rewrite Hm. reflexivity.
  - run_operation. rewrite Hb, Hn, Hp. simpl.
    rewrite (Get_field v "content" Hv), Hf. simpl. rewrite Hs. simpl.
    rewrite (Get_field v "isDone" Hv). reflexivity.
  - simpl. lia.
Qed.

Lemma create_is_200_witness :
  settled (TodoProcessor.handler Reference.engine
             (create_request (dq "{'content':'buy milk','isDone':'yes'}")))
          frozen_world =
    Normal {| statusCode := 200;
              headers := TodoProcessor.corsHeaders;
              responseBody :=
                dq "{'success':true,'data':{'id':'todo-1704067200000-4fzyo82mv','content':'buy milk','isDone':'yes','createdAt':'2024-01-01T00:00:00.000Z','updatedAt':'2024-01-01T00:00:00.000Z'},'message':'Todoアイテムの作成に成功しました'}" |}.
Proof.
  apply (create_is_200 Reference.engine frozen_world
           (create_request (dq "{'content':'buy milk','isDone':'yes'}"))
           (dq "{'content':'buy milk','isDone':'yes'}") "buy milk"
           (JObj [("content", JStr "buy milk"); ("isDone", JStr "yes")]));
    try reflexivity.
  vm_compute. lia.
Defined.

(** X9: A GET request is always answered with status 200 and the same two
    sample items, whatever its query, path parameters and body; only the
    four timestamps vary, each being a clock reading of its own. *)
Theorem list_is_200 (E : Engine) (w : World) (event : APIGatewayProxyEvent) :
  httpMethod event = "GET" ->
  let t k := Some (toISOString (clock w (k + clock_reads w))) in
  settled (TodoProcessor.handler E event) w =
    Normal {| statusCode := 200;
              headers := TodoProcessor.corsHeaders;
              responseBody :=
                JSON_stringify E (TodoProcessor.TodoResponse_json
                  {| TodoProcessor.success := true;
                     TodoProcessor.data :=
                       Some (TodoProcessor.Many
                         [ {| TodoProcessor.id := Some "1";
                              TodoProcessor.content := Some (JStr "サンプルTodo 1");
                              TodoProcessor.isDone := Some (JBool false);
                              TodoProcessor.createdAt := t 1%nat;
                              TodoProcessor.updatedAt := t 2%nat |};
                           {| TodoProcessor.id := Some "2";
                              TodoProcessor.content := Some (JStr "サンプルTodo 2");
                              TodoProcessor.isDone := Some (JBool true);
                              TodoProcessor.createdAt := t 3%nat;
                              TodoProcessor.updatedAt := t 4%nat |} ]);
                     TodoProcessor.message := Some "Todoアイテムの取得に成功しました";
                     TodoProcessor.error := None |}) |}.
Proof.
  intros Hm t.
  refine (handler_of_shallow E w event (TodoProcessor.handleGetTodos event)
            {| TodoProcessor.success := true; TodoProcessor.data := _;
               TodoProcessor.message := _; TodoProcessor.error := None |} _ _ _).
  - unfold operation. rewrite Hm. reflexivity.
  - reflexivity.
  - lazy. lia.
Qed.

Lemma list_is_200_witness :
  exists r,
    settled (TodoProcessor.handler Reference.engine
               (request "GET" (Some {[ "filter" := "done" ]}) None (Some "ignored")))
            frozen_world = Normal r /\
    statusCode r = 200.
Proof.
  eexists. split.
  - exact (list_is_200 Reference.engine frozen_world
             (request "GET" (Some {[ "filter" := "done" ]}) None (Some "ignored"))
             eq_refl).
  - reflexivity.
Defined.

(** ** Update through the handler *)

(** X10: A PUT request with an identifier and a JSON body other than [null]
    is answered with status 200, provided the body holds well-formed text
    and the [content] and [isDone] that end up in the item are nested no
    deeper than [JSON.stringify] gets through inside the envelope.  Unlike
    create, update validates nothing, so a body such as [42] succeeds with
    the default content. *)
Theorem update_is_200 (E : Engine) (w : World) (event : APIGatewayProxyEvent)
    (i text : string) (v : json) :
  httpMethod event = "PUT" ->
  opt_get (pathParameters event) "id" = Some i -> nonempty i = true ->
  body event = Some text -> nonempty text = true ->
  JSON_parse E text = Some v -> v <> JNull ->
  well_formed v = true ->
  (depth (or_else E (field v "content") (JStr "デフォルトコンテンツ")) + 2
   <= stringify_depth E)%nat ->
  (depth (or_else E (field v "isDone") (JBool false)) + 2 <= stringify_depth E)%nat ->
  settled (TodoProcessor.handler E event) w =
    Normal {| statusCode := 200;
              headers := TodoProcessor.corsHeaders;
              responseBody :=
                JSON_stringify E (TodoProcessor.TodoResponse_json (updated
                  {| TodoProcessor.id := Some i;
                     TodoProcessor.content :=
                       Some (or_else E (field v "content") (JStr "デフォルトコンテンツ"));
                     TodoProcessor.isDone :=
                       Some (or_else E (field v "isDone") (JBool false));
                     TodoProcessor.createdAt := Some "2024-01-01T00:00:00.000Z";
                     TodoProcessor.updatedAt :=
                       Some (toISOString (clock w (S (clock_reads w)))) |})) |}.
Proof.
  intros Hm Hi Hni Hb Hnt Hp Hv _ Hdc Hdd.
  refine (handler_of_operation E w event (TodoProcessor.handleUpdateTodo E event)
            (updated _) _ _ _).
  - unfold operation. rewrite Hm. reflexivity.
  - run_operation. rewrite Hi, Hni, Hb, Hnt, Hp. simpl.
    rewrite (Get_field v "content" Hv), (Get_field v "isDone" Hv). reflexivity.
  - simpl. lia.
Qed.

Lemma update_is_200_witness :
  settled (TodoProcessor.handler Reference.engine (update_request "42" "42")) frozen_world =
    Normal {| statusCode := 200;
              headers := TodoProcessor.corsHeaders;
              responseBody :=
                dq "{'success':true,'data':{'id':'42','content':'デフォルトコンテンツ','isDone':false,'createdAt':'2024-01-01T00:00:00.000Z','updatedAt':'2024-01-01T00:00:00.000Z'},'message':'Todoアイテムの更新に成功しました'}" |}.
Proof.
  apply (update_is_200 Reference.engine frozen_world (update_request "42" "42")
           "42" "42" (JNum "42")); try reflexivity.
  - discriminate.
  - vm_compute. lia.
  - vm_compute. lia.
Defined.

(** ** Generated identifiers, continued *)

Lemma length_take_str (n : nat) (s : string) :
  String.length (take_str n s) = Nat.min n (String.length s).
Proof.
  revert s. induction n as [| n IH]; intros [| c s]; simpl; try reflexivity.
  rewrite IH. reflexivity.
Qed.

Lemma length_drop_str (n : nat) (s : string) :
  String.length (drop_str n s) = (String.length s - n)%nat.
Proof.
  revert s. induction n as [| n IH]; intros [| c s]; simpl; try reflexivity.
  apply IH.
Qed.

Lemma take_str_prefix (n : nat) (s : string) : is_prefix (take_str n s) s = true.
Proof.
  revert s. induction n as [| n IH]; intros [| c s]; simpl; try reflexivity.
  rewrite Ascii.eqb_refl. apply IH.
Qed.

(** A prefix is determined by its length. *)
Lemma prefix_is_take (a s : string) :
  is_prefix a s = true -> a = take_str (String.length a) s.
Proof.
  revert s. induction a as [| c a IH]; intros [| d s]; simpl; intros H;
    try reflexivity; try discriminate.
  apply andb_prop in H as [Hc Ha]. apply Ascii.eqb_eq in Hc. subst d.
  rewrite <- (IH s Ha). reflexivity.
Qed.

(** X11: An identifier is ["todo-"], the clock reading in decimal, a dash, and
    a suffix cut from the random rendering: the suffix starts after the
    rendering's first two characters and has nine characters, or as many as
    are left when those are fewer (none for a draw of exactly zero, which
    renders as ["0"]).  One clock reading and one random draw are used
    up. *)
Theorem generated_identifier_shape (w : World) :
  exists suffix,
    TodoProcessor.generateUniqueId w =
      (Normal ("todo-" ++ dec (clock w (clock_reads w)) ++ "-" ++ suffix),
       {| FUNCTION_NAME := FUNCTION_NAME w; clock := clock w; random := random w;
          clock_reads := S (clock_reads w); random_draws := S (random_draws w) |}) /\
    String.length suffix
      = Nat.min 9 (String.length (random w (random_draws w)) - 2) /\
    is_prefix suffix (drop_str 2 (random w (random_draws w))) = true.
Proof.
  exists (substr 2 9 (random w (random_draws w))). split; [reflexivity |].
  unfold substr. split.
  - rewrite length_take_str, length_drop_str. reflexivity.
  - apply take_str_prefix.
Qed.

Lemma generated_identifier_shape_witness :
  fst (TodoProcessor.generateUniqueId frozen_world) = Normal "todo-1704067200000-4fzyo82mv".
Proof.
  destruct (generated_identifier_shape frozen_world) as (suffix & Hrun & Hlen & Hpre).
  apply prefix_is_take in Hpre. rewrite Hlen in Hpre. simpl in Hpre.
  rewrite Hrun, Hpre. reflexivity.
Defined.

Example generated_identifier_zero_draw :
  fst (TodoProcessor.generateUniqueId
         {| FUNCTION_NAME := None; clock := fun _ => 1704067200000;
            random := fun _ => "0"; clock_reads := O; random_draws := O |})
  = Normal "todo-1704067200000-".
Proof.
  destruct (generated_identifier_shape
              {| FUNCTION_NAME := None; clock := fun _ => 1704067200000;
                 random := fun _ => "0"; clock_reads := O; random_draws := O |})
    as (suffix & Hrun & Hlen & Hpre).
  apply prefix_is_take in Hpre. rewrite Hlen in Hpre. simpl in Hpre.
  rewrite Hrun, Hpre. reflexivity.
Qed.

(** ** The greeting handler as a whole *)

Lemma depth_element (x : json) (l : list json) :
  In x l -> (depth x <= fold_right Nat.max O (List.map depth l))%nat.
Proof.
  induction l as [| y l IH]; simpl; [contradiction |].
  intros [-> | H]; [lia | specialize (IH H); lia].
Qed.

Lemma depth_assoc (k : string) (props : list (string * json)) (x : json) :
  assoc k props = Some x ->
  (depth x <= fold_right Nat.max O (List.map (fun p => depth (snd p)) props))%nat.
Proof.
  induction props as [| [k' y] props IH]; simpl; [discriminate |].
  destruct (String.eqb k k').
  - intros [= ->]. lia.
  - intros H. specialize (IH H). lia.
Qed.

(** What [||] picks is nested no deeper than the value it was read from. *)
Lemma depth_or_else (E : Engine) (v : json) (k : string) (d : json) :
  depth d = O -> (depth (or_else E (field v k) d) <= depth v)%nat.
Proof.
  intros Hd. unfold or_else, field. destruct v; simpl; try lia.
  destruct (assoc k props) as [x |] eqn:Hx; [| lia].
  destruct (truthy E (Some x)); [| lia].
  pose proof (depth_assoc k props x Hx). lia.
Qed.

(** A conversion to string fails with a [TypeError] (an object that cannot
    be converted) or with a [RangeError]; the latter only when arrays are
    nested beyond the budget. *)
Lemma ToString_within_error (E : Engine) :
  forall (v : json) (budget : nat) (e : JSError),
    ToString_within E budget v = Throw e ->
    e = TypeError \/ (e = RangeError /\ (budget < depth v)%nat).
Proof.
  fix IH 1. intros v budget e. destruct v as [| b | n | s | items | props].
  - discriminate.
  - destruct b; discriminate.
  - discriminate.
  - discriminate.
  - destruct budget as [| below];
      [simpl; intros [= <-]; right; split; [reflexivity | lia] |].
    change (depth (JArr items)) with (S (fold_right Nat.max O (List.map depth items))).
    cbn [ToString_within].
    revert items. fix IHl 1. intros [| x r]; [discriminate |].
    pose proof (IH x below e) as IHx. pose proof (IHl r) as IHr. clear IH IHl.
    cbn [List.map fold_right].
    destruct (match x with JNull => Normal EmptyString | _ => ToString_within E below x end)
      as [sx | ex] eqn:Hx.
    + destruct r as [| y r']; [discriminate |].
      match goal with
      | |- match ?t with _ => _ end = _ -> _ => destruct t as [t' | et]
      end; [discriminate |].
      intros [= <-]. destruct (IHr eq_refl) as [-> | [-> Hlt]]; [left; reflexivity |].
      right. split; [reflexivity |]. lia.
    + intros [= <-].
      assert (Hx' : ToString_within E below x = Throw ex)
        by (destruct x; try discriminate Hx; exact Hx).
      destruct (IHx Hx') as [-> | [-> Hlt]]; [left; reflexivity |].
      right. split; [reflexivity |]. lia.
  - simpl. destruct (has_key "toString" props);
      [intros [= <-]; left; reflexivity | discriminate].
Qed.

Lemma depth_postObject (msg timestamp : string) (v : json) (fn : string) :
  depth (HelloWorld.postObject msg timestamp v fn) = S (depth v).
Proof. simpl. f_equal. lia. Qed.

(** Every outcome of the greeting handler, sorted: a response from one of
    the three branches of the [switch], or an error raised while a parsed
    POST body is being read, converted or serialised. *)
Lemma greeting_outcome (E : Engine) (w : World) (event : APIGatewayProxyEvent) :
  (exists r, settled (HelloWorld.handler E event) w = Normal r /\
             dispatch_status (statusCode r) /\
             headers r = HelloWorld.responseHeaders)
  \/
  (exists e text v,
      settled (HelloWorld.handler E event) w = Throw e /\
      httpMethod event = "POST" /\
      body event = Some text /\ nonempty text = true /\
      JSON_parse E text = Some v /\
      (e = TypeError \/
       (e = RangeError /\
        ((join_depth E < depth v)%nat \/ (stringify_depth E <= depth v)%nat)))).
Proof.
  unfold dispatch_status.
  destruct (String.eqb (httpMethod event) "GET") eqn:Hget.
  { left. unfold_run. rewrite Hget. crunch. eexists. split; [reflexivity |]. simpl. auto. }
  destruct (String.eqb_spec (httpMethod event) "POST") as [Hm | Hm].
  2: { left. unfold_run. rewrite Hget. apply String.eqb_neq in Hm. rewrite Hm. crunch.
       eexists. split; [reflexivity |]. simpl. auto. }
  unfold_run. rewrite Hm. simpl.
  destruct (body event) as [text |];
    [| crunch; left; eexists; split; [reflexivity |]; simpl; auto].
  destruct (nonempty text) eqn:Hn;
    [| crunch; left; eexists; split; [reflexivity |]; simpl; auto].
  destruct (JSON_parse E text) as [v |] eqn:Hp; simpl;
    [| crunch; left; eexists; split; [reflexivity |]; simpl; auto].
  assert (Hnull : v = JNull \/ v <> JNull)
    by (destruct v; [left; reflexivity | right; discriminate ..]).
  destruct Hnull as [-> | Hv].
  { right. exists TypeError, text, JNull. simpl. repeat split; auto. }
  rewrite (Get_field v "name" Hv), (Get_field v "message" Hv). simpl.
  assert (Hconv : forall k d e, depth d = O ->
             ToString E (or_else E (field v k) d) = Throw e ->
             e = TypeError \/
             (e = RangeError /\
              ((join_depth E < depth v)%nat \/ (stringify_depth E <= depth v)%nat))).
  { intros k d e Hd He. pose proof (depth_or_else E v k d Hd) as Hle.
    destruct (ToString_within_error E _ _ _ He) as [-> | [-> Hlt]]; [left; reflexivity |].
    right. split; [reflexivity |]. left. lia. }
  destruct (ToString E (or_else E (field v "message") (JStr "Hello"))) as [s1 | e1] eqn:H1;
    simpl.
  2: { right. exists e1, text, v. repeat split; auto. exact (Hconv "message" (JStr "Hello") e1 eq_refl H1). }
  destruct (ToString E (or_else E (field v "name") (JStr "World"))) as [s2 | e2] eqn:H2;
    simpl.
  2: { right. exists e2, text, v. repeat split; auto. exact (Hconv "name" (JStr "World") e2 eq_refl H2). }
  match goal with
  | |- context [stringify E ?obj] =>
      destruct (Nat.leb_spec (depth obj) (stringify_depth E)) as [Hd | Hd];
      [ rewrite (stringify_within E obj Hd) | rewrite (stringify_beyond E obj Hd) ]
  end; simpl.
  - left. eexists. split; [reflexivity |]. simpl. auto.
  - right. exists RangeError, text, v. repeat split; auto.
    right. split; [reflexivity |]. right.
    rewrite depth_postObject in Hd. lia.
Qed.

(** X12: The greeting handler never answers 500: a response it gives has status
    200, 400 or 405 and always the same four headers.  The outer [catch]
    clause cannot be reached, since the [try] block only creates promises
    and builds the 405 response. *)
Theorem greeting_never_500 (E : Engine) (w : World) (event : APIGatewayProxyEvent)
    (r : APIGatewayProxyResult) :
  settled (HelloWorld.handler E event) w = Normal r ->
  dispatch_status (statusCode r) /\ headers r = HelloWorld.responseHeaders.
Proof.
  intros H.
  destruct (greeting_outcome E w event) as [(r' & Hr & Hs & Hh) | (e & text & v & Ht & _)].
  - rewrite H in Hr. injection Hr as <-. auto.
  - rewrite H in Ht. discriminate Ht.
Qed.

Lemma greeting_never_500_witness :
  dispatch_status 400 /\
  HelloWorld.responseHeaders = HelloWorld.responseHeaders.
Proof.
  exact (greeting_never_500 Reference.engine frozen_world
           (request "POST" None None (Some "{name:1}"))
           {| statusCode := 400;
              headers := HelloWorld.responseHeaders;
              responseBody :=
                dq "{'error':'リクエストボディが無効なJSON形式です','timestamp':'2024-01-01T00:00:00.000Z','statusCode':400}" |}
           eq_refl).
Defined.

(** X13: The promise of the greeting handler is rejected only for a POST
    request whose body was parsed as JSON.  The error is a [TypeError]
    (the body is [null], or a field cannot be converted to a string) or a
    [RangeError], and the latter only for a body nested as deep as the
    engine's limits: deeper than [Array.prototype.join] gets through, or at
    least as deep as [JSON.stringify] does.  A malformed body never surfaces
    as an exception, and GET and the other methods never fail. *)
Theorem greeting_rejects_only_parsed_post (E : Engine) (w : World)
    (event : APIGatewayProxyEvent) (e : JSError) :
  settled (HelloWorld.handler E event) w = Throw e ->
  httpMethod event = "POST" /\
  exists text v,
    body event = Some text /\ nonempty text = true /\
    JSON_parse E text = Some v /\
    (e = TypeError \/
     (e = RangeError /\
      ((join_depth E < depth v)%nat \/ (stringify_depth E <= depth v)%nat))).
Proof.
  intros H.
  destruct (greeting_outcome E w event)
    as [(r' & Hr & _) | (e' & text & v & Ht & Hm & Hb & Hn & Hp & He)].
  - rewrite H in Hr. discriminate Hr.
  - rewrite H in Ht. injection Ht as ->. split; [exact Hm |]. exists text, v. auto.
Qed.

Lemma greeting_rejects_only_parsed_post_witness :
  let event := request "POST" None None (Some (nested_arrays_text 1000)) in
  httpMethod event = "POST" /\
  exists text v,
    body event = Some text /\ nonempty text = true /\
    JSON_parse Reference.engine text = Some v /\
    (RangeError = TypeError \/
     (RangeError = RangeError /\
      ((join_depth Reference.engine < depth v)%nat \/
       (stringify_depth Reference.engine <= depth v)%nat))).
Proof.
  intros event.
  apply (greeting_rejects_only_parsed_post Reference.engine frozen_world event RangeError).
  vm_compute. reflexivity.
Defined.

Example post_unconvertible_field_rejected :
  settled (HelloWorld.handler Reference.engine
             (request "POST" None None (Some (dq "{'message':[{'toString':0}]}"))))
          frozen_world
  = Throw TypeError.
Proof. reflexivity. Qed.

Lemma post_malformed_body_400_witness :
  settled (HelloWorld.handler Reference.engine
             (request "POST" None None (Some "{name:1}"))) frozen_world =
    Normal {| statusCode := 400;
              headers := HelloWorld.responseHeaders;
              responseBody :=
                dq "{'error':'リクエストボディが無効なJSON形式です','timestamp':'2024-01-01T00:00:00.000Z','statusCode':400}" |}.
Proof.
  exact (post_malformed_body_400 Reference.engine frozen_world
           (request "POST" None None (Some "{name:1}")) "{name:1}"
           eq_refl eq_refl eq_refl eq_refl).
Defined.

Lemma post_parsed_body_200_witness :
  settled (HelloWorld.handler Reference.engine
             (request "POST" None None (Some (dq "{'name':['A','B'],'message':7.50}"))))
          frozen_world =
    Normal {| statusCode := 200;
              headers := HelloWorld.responseHeaders;
              responseBody :=
                dq "{'message':'7.5 A,B!','timestamp':'2024-01-01T00:00:00.000Z','method':'POST','receivedData':{'name':['A','B'],'message':7.5},'functionName':'hello-world'}" |}.
Proof.
  apply (post_parsed_body_200 Reference.engine frozen_world
           (request "POST" None None (Some (dq "{'name':['A','B'],'message':7.50}")))
           (dq "{'name':['A','B'],'message':7.50}")
           eq_refl eq_refl eq_refl
           (JObj [("name", JArr [JStr "A"; JStr "B"]); ("message", JNum "7.50")])
           (Some (JArr [JStr "A"; JStr "B"])) (Some (JNum "7.50")) "7.5" "A,B");
    try reflexivity.
  vm_compute. lia.
Defined.

(** X16: A POST body that parses to anything but [null], holds well-formed
    text, is nested less deeply than [JSON.stringify] gets through, and
    offers no truthy [name] and no truthy [message] is greeted like an
    absent body: a number, a string, an array, or an object whose fields are
    missing, empty, zero, [false] or [null] all get "Hello World!", and the
    parsed value is echoed as [receivedData]. *)
Theorem post_falsy_fields_hello_world (E : Engine) (w : World)
    (event : APIGatewayProxyEvent) (text : string) (v : json) :
  httpMethod event = "POST" ->
  body event = Some text -> nonempty text = true ->
  JSON_parse E text = Some v ->
  v <> JNull ->
  well_formed v = true ->
  (depth v < stringify_depth E)%nat ->
  truthy E (field v "name") = false ->
  truthy E (field v "message") = false ->
  settled (HelloWorld.handler E event) w =
    Normal {| statusCode := 200;
              headers := HelloWorld.responseHeaders;
              responseBody :=
                JSON_stringify E
                  (HelloWorld.postObject "Hello World!"
                     (toISOString (clock w (S (clock_reads w))))
                     v
                     (str_or (FUNCTION_NAME w) "hello-world")) |}.
Proof.
  intros Hm Hb Hn Hp Hv _ Hd Hname Hmsg.
  unfold_run. rewrite Hm. simpl. rewrite Hb, Hn, Hp. simpl.
  rewrite (Get_field v "name" Hv), (Get_field v "message" Hv). simpl.
  assert (Hdefault : forall k d, truthy E (field v k) = false ->
                                 or_else E (field v k) d = d)
    by (intros k d Hk; unfold or_else; rewrite Hk; destruct (field v k); reflexivity).
  rewrite (Hdefault "message" _ Hmsg), (Hdefault "name" _ Hname). simpl.
  rewrite stringify_within by (rewrite depth_postObject; lia). reflexivity.
Qed.

Lemma post_falsy_fields_hello_world_witness :
  settled (HelloWorld.handler Reference.engine
             (request "POST" None None (Some (dq "{'name':'','message':0}"))))
          frozen_world =
    Normal {| statusCode := 200;
              headers := HelloWorld.responseHeaders;
              responseBody :=
                dq "{'message':'Hello World!','timestamp':'2024-01-01T00:00:00.000Z','method':'POST','receivedData':{'name':'','message':0},'functionName':'hello-world'}" |}.
Proof.
  apply (post_falsy_fields_hello_world Reference.engine frozen_world
           (request "POST" None None (Some (dq "{'name':'','message':0}")))
           (dq "{'name':'','message':0}")
           (JObj [("name", JStr EmptyString); ("message", JNum "0")]));
    try reflexivity.
  - discriminate.
  - vm_compute. lia.
Defined.

(** X17: A GET request never fails and its answer depends on three things only:
    the [name] query parameter, the clock reading after the opening one, and
    [FUNCTION_NAME], which falls back to "hello-world" when unset or empty.
    Body, path and path parameters are not looked at. *)
Theorem get_response (E : Engine) (w : World) (event : APIGatewayProxyEvent) :
  httpMethod event = "GET" ->
  settled (HelloWorld.handler E event) w =
    Normal {| statusCode := 200;
              headers := HelloWorld.responseHeaders;
              responseBody :=
                JSON_stringify E
                  (HelloWorld.getObject
                     (str_or (opt_get (queryStringParameters event) "name") "World")
                     (toISOString (clock w (S (clock_reads w))))
                     (str_or (FUNCTION_NAME w) "hello-world")) |}.
Proof.
  intros Hm. unfold settled, HelloWorld.handler. rewrite Hm. crunch.
Qed.

Lemma get_response_witness :
  settled (HelloWorld.handler Reference.engine
             (request "GET" (Some {[ "name" := EmptyString ]}) None (Some "not json")))
          {| FUNCTION_NAME := Some EmptyString;
             clock := fun n => 1704067200000 + 1500 * Z.of_nat n;
             random := fun _ => "0.1";
             clock_reads := 2%nat;
             random_draws := O |} =
    Normal {| statusCode := 200;
              headers := HelloWorld.responseHeaders;
              responseBody :=
                dq "{'message':'Hello World!','timestamp':'2024-01-01T00:00:04.500Z','method':'GET','functionName':'hello-world'}" |}.
Proof.
  exact (get_response Reference.engine _
           (request "GET" (Some {[ "name" := EmptyString ]}) None (Some "not json"))
           eq_refl).
Defined.
